(** * simple-html-greetings: the onboarding route guard and the client
      portal's messaging data layer

    A shallow embedding of
    - [src/components/OnboardingProtectedRoute.tsx] (the access gate),
    - the route table of [src/App.tsx],
    - the data layer of [src/pages/ClientPortal.tsx] (queries, the
      send-message mutation, the file upload handler and the realtime
      listener) and what it passes to [src/components/MessageInput.tsx],
    and the properties of the specification that concern them; then of
    - the handlers of [src/components/MessageInput.tsx],
    - the client list that shares the file of the route guard,
    - the onboarding page (its check on mount and its submit handler),
    with further properties read off these sources. *)

From stdpp Require Import base option list strings gmap fin_maps.

Open Scope string_scope.

(** ** Promises

    Every asynchronous call of the sources settles either with a value or
    with a thrown value.  [e instanceof Error ? e.message : ...] only ever
    looks at whether the thrown value is an [Error] and at its message. *)

Inductive Thrown : Type :=
  | ErrorObj (message : string)
  | OtherThrown.

Inductive Settled (A : Type) : Type :=
  | Fulfilled (a : A)
  | Rejected (e : Thrown).
Arguments Fulfilled {A} a.
Arguments Rejected {A} e.

(** * The route guard *)

Module Guard.

(** The [Location] object of the router. *)
Record Location : Type := mkLocation {
  pathname : string;
  search : string;
  hash : string;
  key : string
}.

(** The signed-in principal, as the sources read it ([user.id],
    [user.email]). *)
Record User : Type := mkUser {
  id : string;
  email : string
}.

(** What [useAuth()] hands to the guard.  [checkOnboardingStatus] is the
    asynchronous refresh; the guard only awaits it. *)
Record AuthContextValue : Type := mkAuth {
  user : option User;
  loading : bool;
  onboardingCompleted : bool
}.

(** [OnboardingProtectedRouteProps]: [requireOnboarding?: boolean] may be
    left out by the caller. *)
Record OnboardingProtectedRouteProps : Type := mkProps {
  requireOnboarding : option bool
}.

(** What the component returns: the spinner, a [<Navigate>] with its [to],
    its [state={{ from: location }}] (absent on the redirect to home) and
    its [replace] flag, or the children. *)
Inductive Element : Type :=
  | Loader
  | Navigate (to : string) (from : option Location) (replace : bool)
  | Children.

(** The destructuring default [requireOnboarding = true]. *)
Definition requireOnboarding_or_default (props : OnboardingProtectedRouteProps) : bool :=
  default true (requireOnboarding props).

(** The body of the component after its hooks: [checking] is the local
    state, [location] the result of [useLocation()]. *)
Definition OnboardingProtectedRoute
    (props : OnboardingProtectedRouteProps) (auth : AuthContextValue)
    (location : Location) (checking : bool) : Element :=
  let requireOnboarding := requireOnboarding_or_default props in
  (* the last two statements of the component, reached when no earlier
     [return] fired *)
  let on_onboarding_page_or_children :=
    if String.eqb (pathname location) "/onboarding" && onboardingCompleted auth
    then Navigate "/" None true
    else Children in
  if loading auth || checking then Loader
  else match user auth with
  | None => Navigate "/auth" (Some location) true
  | Some _ =>
    if requireOnboarding && negb (onboardingCompleted auth) then
      if negb (String.eqb (pathname location) "/onboarding")
      then Navigate "/onboarding" (Some location) true
      else on_onboarding_page_or_children
    else on_onboarding_page_or_children
  end.

(** The effect that clears [checking]: [check] awaits
    [checkOnboardingStatus()] when a user is present and the session has
    settled, and then calls [setChecking(false)]; without a user it clears
    [checking] as soon as the session has settled.  [status] is how the
    awaited call settles; when it rejects, [setChecking] is not reached. *)
Definition check (auth : AuthContextValue) (status : Settled unit) (checking : bool) : bool :=
  match user auth, loading auth with
  | Some _, false =>
    match status with
    | Fulfilled _ => false
    | Rejected _ => checking
    end
  | None, false => false
  | _, true => checking
  end.

(** The initial value of the [checking] state, [useState(true)]. *)
Definition checking_init : bool := true.

(** The four decisions of the specification, as the elements that carry
    them out. *)
Definition Render : Element := Children.
Definition RedirectAuth (from : Location) : Element := Navigate "/auth" (Some from) true.
Definition RedirectOnboarding (from : Location) : Element := Navigate "/onboarding" (Some from) true.
Definition RedirectHome : Element := Navigate "/" None true.

(** A navigation decision is anything but the spinner. *)
Definition is_decision (e : Element) : bool :=
  match e with
  | Loader => false
  | _ => true
  end.

(** The session is settling while the auth context loads or the guard's
    own onboarding check is pending. *)
Definition settling (auth : AuthContextValue) (checking : bool) : bool :=
  loading auth || checking.

End Guard.

(** * The route table of [App] *)

Module Routes.
Import Guard.

Inductive Page : Type :=
  | Auth | Onboarding | Index | Kanban | ClientDetail | Messages | Files | NotFound.

(** How a route's element wraps its page: not at all, in
    [<ProtectedRoute>], or in [<OnboardingProtectedRoute>] with the props
    written at that place. *)
Inductive RouteElement : Type :=
  | Plain (page : Page)
  | ProtectedRoute (page : Page)
  | OnboardingGuarded (props : OnboardingProtectedRouteProps) (page : Page).

Record Route : Type := mkRoute {
  path : string;
  element : RouteElement
}.

(** The [<Routes>] of [App], in order.  No [<OnboardingProtectedRoute>]
    there is given a [requireOnboarding] attribute. *)
Definition App : list Route :=
  [ mkRoute "/auth" (Plain Auth);
    mkRoute "/onboarding" (ProtectedRoute Onboarding);
    mkRoute "/" (OnboardingGuarded (mkProps None) Index);
    mkRoute "/kanban" (OnboardingGuarded (mkProps None) Kanban);
    mkRoute "/client/:id" (OnboardingGuarded (mkProps None) ClientDetail);
    mkRoute "/messages" (OnboardingGuarded (mkProps None) Messages);
    mkRoute "/files" (OnboardingGuarded (mkProps None) Files);
    mkRoute "*" (Plain NotFound) ].

(** The props of the guard of a route, when it has one. *)
Definition guard_props (r : Route) : option OnboardingProtectedRouteProps :=
  match element r with
  | OnboardingGuarded props _ => Some props
  | _ => None
  end.

End Routes.

(** * The client portal's data layer *)

Module Portal.

(** ** Data *)

(** Modelled from the spec: the [Message] type of the message service,
    which is not among the sources; the portal passes messages on without
    reading them.  [clientId] is the conversation the row belongs to and
    [flag] the third argument of [sendMessage]. *)
Record Message : Type := mkMessage {
  msg_id : nat;
  msg_clientId : string;
  msg_content : string;
  msg_flag : bool;
  msg_createdAt : nat
}.

(** Modelled from the spec: the [FileItem] type of the file service, which
    is not among the sources; the portal reads only [file.clientId]. *)
Record FileItem : Type := mkFileItem {
  file_id : nat;
  file_name : string;
  file_clientId : string;
  file_size : nat;
  file_type : string
}.

(** The browser's [File] handed to the upload handler. *)
Record File : Type := mkFile {
  name : string;
  size : nat;
  type : string
}.

#[global] Instance FileItem_eq_dec : EqDecision FileItem.
Proof. solve_decision. Defined.

Inductive Variant : Type := VDefault | VDestructive.

Record Toast : Type := mkToast {
  title : string;
  description : string;
  variant : Variant
}.

(** The calls the portal makes to the message and file services, in the
    order it makes them.  (Calls of a query function are counted in the
    query itself, see [fetches].) *)
Inductive ServiceCall : Type :=
  | CallSendMessage (clientId content : string) (flag : bool)
  | CallUploadFile (file : File) (clientId : string).

(** ** The query client

    The part of the query library the portal relies on ([useQuery],
    [useMutation], [invalidateQueries]), with the library's defaults.
    Query keys are arrays of strings.  The cache holds, per key, the data
    of the last successful fetch, the invalidation mark, whether a fetch
    is in flight, and how many times the query function has been called;
    the last identifies the fetch in flight, so that the result of a fetch
    that a later refetch has cancelled is dropped.  A fetch is taken as a
    whole: the calls by which the library retries a failing query function
    are counted when the fetch fails for good, and what happens to a query
    between two of them is not described. *)

Inductive QueryData : Type :=
  | MessagesData (messages : list Message)
  | FilesData (files : list FileItem).

Inductive FetchStatus : Type := Idle | Fetching.

Record Query : Type := mkQuery {
  data : option QueryData;
  isInvalidated : bool;
  fetchStatus : FetchStatus;
  fetches : nat
}.

#[global] Instance FetchStatus_eq_dec : EqDecision FetchStatus.
Proof. solve_decision. Defined.

(** A query that has just been created by a mounting [useQuery]: no data,
    its first fetch in flight. *)
Definition new_query : Query :=
  {| data := None; isInvalidated := false; fetchStatus := Fetching; fetches := 1 |}.

(** Whether invalidating a query calls its query function again.  A
    query that holds data is refetched, a fetch in flight being cancelled;
    so is an idle query.  A query without data whose fetch is in flight
    is left to that fetch: no call is made and the answer of the fetch in
    flight will be taken. *)
Definition refetches (q : Query) : bool :=
  negb (bool_decide (fetchStatus q = Fetching) && bool_decide (data q = None)).

(** Invalidating one query marks it and, the query being observed by the
    mounted portal, refetches it as [refetches] says. *)
Definition invalidate (q : Query) : Query :=
  {| data := data q; isInvalidated := true;
     fetchStatus := Fetching;
     fetches := if refetches q then S (fetches q) else fetches q |}.

(** [queryClient.invalidateQueries({ queryKey })]: every query whose key
    starts with [queryKey] is invalidated. *)
Definition invalidateQueries (queryKey : list string)
    (cache : gmap (list string) Query) : gmap (list string) Query :=
  map_imap (λ k q, Some (if bool_decide (queryKey `prefix_of` k)
                         then invalidate q else q)) cache.

(** The fetch numbered [n] of a query settles.  It is dropped unless it is
    the one in flight; on success the data is replaced by the result as a
    whole and the invalidation mark is cleared.  A query function that
    rejects is called again, three times by default; [Rejected] is the
    fetch failing for good, after these three calls: the data stays and
    the query is marked invalidated. *)
Definition settle (n : nat) (r : Settled QueryData) (q : Query) : Query :=
  if bool_decide (fetchStatus q = Fetching) && bool_decide (fetches q = n) then
    match r with
    | Fulfilled d =>
      {| data := Some d; isInvalidated := false;
         fetchStatus := Idle; fetches := fetches q |}
    | Rejected _ =>
      {| data := data q; isInvalidated := true;
         fetchStatus := Idle; fetches := fetches q + 3 |}
    end
  else q.

(** ** The mutation *)

Inductive MutationStatus : Type := MIdle | MPending | MSuccess | MError.

Record Mutation : Type := mkMutation {
  status : MutationStatus;
  variables : option string
}.

Definition isPending (m : Mutation) : bool :=
  match status m with
  | MPending => true
  | _ => false
  end.

(** ** The realtime channel *)

Record Channel : Type := mkChannel {
  topic : string;
  event : string;
  schema : string;
  table : string;
  filter : string
}.

#[global] Instance Channel_eq_dec : EqDecision Channel.
Proof. solve_decision. Defined.

(** The payload of a change event: what happened and the columns of the
    new row.  The listener receives it and does not read it. *)
Record Payload : Type := mkPayload {
  eventType : string;
  new_row : list (string * string);
  old_row : list (string * string)
}.

(** ** The state of the mounted portal *)

Record World : Type := mkWorld {
  clientId : string;
  queryClient : gmap (list string) Query;
  sendMessageMutation : Mutation;
  toasts : list Toast;
  console : list string;
  calls : list ServiceCall;
  channels : list Channel
}.

Definition set_queryClient (f : gmap (list string) Query → gmap (list string) Query)
    (w : World) : World :=
  mkWorld (clientId w) (f (queryClient w)) (sendMessageMutation w)
          (toasts w) (console w) (calls w) (channels w).

Definition set_mutation (m : Mutation) (w : World) : World :=
  mkWorld (clientId w) (queryClient w) m
          (toasts w) (console w) (calls w) (channels w).

Definition toast (t : Toast) (w : World) : World :=
  mkWorld (clientId w) (queryClient w) (sendMessageMutation w)
          (toasts w ++ [t]) (console w) (calls w) (channels w).

Definition console_error (msg : string) (w : World) : World :=
  mkWorld (clientId w) (queryClient w) (sendMessageMutation w)
          (toasts w) (console w ++ [msg]) (calls w) (channels w).

Definition call (c : ServiceCall) (w : World) : World :=
  mkWorld (clientId w) (queryClient w) (sendMessageMutation w)
          (toasts w) (console w) (calls w ++ [c]) (channels w).

Definition set_channels (f : list Channel → list Channel) (w : World) : World :=
  mkWorld (clientId w) (queryClient w) (sendMessageMutation w)
          (toasts w) (console w) (calls w) (f (channels w)).

Definition messagesKey (w : World) : list string := ["client-messages"; clientId w].
Definition filesKey (w : World) : list string := ["client-files"; clientId w].

(** ** Mounting *)

(** The channel the subscription effect opens. *)
Definition messages_channel (clientId : string) : Channel :=
  {| topic := "public:client_messages"; event := "*"; schema := "public";
     table := "client_messages"; filter := "client_id=eq." ++ clientId |}.

(** The portal right after its first render and its effects: both queries
    created and fetching, the mutation idle, the channel subscribed. *)
Definition mount : World :=
  let clientId := "client-id-1" in
  {| clientId := clientId;
     queryClient := <[ ["client-messages"; clientId] := new_query ]>
                    (<[ ["client-files"; clientId] := new_query ]> ∅);
     sendMessageMutation := {| status := MIdle; variables := None |};
     toasts := [];
     console := [];
     calls := [];
     channels := [messages_channel clientId] |}.

(** The cleanup of the subscription effect, [supabase.removeChannel]. *)
Definition unmount (w : World) : World :=
  set_channels (λ chs, List.filter
    (λ ch, negb (bool_decide (ch = messages_channel (clientId w)))) chs) w.

(** ** The query functions *)

(** [queryFn: () => getMessagesForClient(clientId)]: the result is the
    service's answer. *)
Definition messages_queryFn (answer : Settled (list Message)) : Settled QueryData :=
  match answer with
  | Fulfilled ms => Fulfilled (MessagesData ms)
  | Rejected e => Rejected e
  end.

(** The files query function: all files of the service, filtered down to
    those of this client. *)
Definition files_queryFn (clientId : string) (answer : Settled (list FileItem)) :
    Settled QueryData :=
  match answer with
  | Fulfilled allFiles =>
    Fulfilled (FilesData
      (List.filter (λ file, String.eqb (file_clientId file) clientId) allFiles))
  | Rejected e => Rejected e
  end.

(** The fetch numbered [n] of the messages (files) query settles with the
    service's [answer]. *)
Definition messages_fetched (n : nat) (answer : Settled (list Message)) (w : World) : World :=
  set_queryClient (alter (settle n (messages_queryFn answer)) (messagesKey w)) w.

Definition files_fetched (n : nat) (answer : Settled (list FileItem)) (w : World) : World :=
  set_queryClient (alter (settle n (files_queryFn (clientId w) answer)) (filesKey w)) w.

(** ** Sending a message *)

(** [sendMessageMutation.mutate(content)]: the mutation becomes pending
    and its [mutationFn] calls [sendMessage(clientId, content, false)].
    The mutation has no [onMutate]. *)
Definition mutate (content : string) (w : World) : World :=
  call (CallSendMessage (clientId w) content false)
    (set_mutation {| status := MPending; variables := Some content |} w).

Definition onSuccess (w : World) : World :=
  toast {| title := "Message sent";
           description := "Your message has been sent successfully.";
           variant := VDefault |}
    (set_queryClient (invalidateQueries (messagesKey w)) w).

Definition onError (w : World) : World :=
  toast {| title := "Error";
           description := "Failed to send message. Please try again.";
           variant := VDestructive |} w.

(** The pending mutation settles with the service's [answer]; the library
    does not retry a mutation. *)
Definition mutation_settled (answer : Settled Message) (w : World) : World :=
  match status (sendMessageMutation w) with
  | MPending =>
    match answer with
    | Fulfilled _ =>
      onSuccess (set_mutation {| status := MSuccess;
                                 variables := variables (sendMessageMutation w) |} w)
    | Rejected _ =>
      onError (set_mutation {| status := MError;
                               variables := variables (sendMessageMutation w) |} w)
    end
  | _ => w
  end.

(** ** Uploading a file *)

(** [handleFileUpload] up to its [await]: the call of
    [fileService.uploadFile(file, clientId)]. *)
Definition handleFileUpload_call (file : File) (w : World) : World :=
  call (CallUploadFile file (clientId w)) w.

(** The [catch] block. *)
Definition handleFileUpload_catch (error : Thrown) (w : World) : World :=
  toast {| title := "Upload failed";
           description := match error with
                          | ErrorObj message => message
                          | OtherThrown => "Failed to upload file"
                          end;
           variant := VDestructive |}
    (console_error "Error uploading file:" w).

(** [handleFileUpload] after its [await]: [answer] is how [uploadFile]
    settled, with [None] for a falsy result. *)
Definition handleFileUpload_resume (file : File) (answer : Settled (option FileItem))
    (w : World) : World :=
  match answer with
  | Fulfilled (Some uploadedFile) =>
    toast {| title := "File uploaded";
             description := name file ++ " has been uploaded successfully.";
             variant := VDefault |}
      (set_queryClient (invalidateQueries (filesKey w)) w)
  | Fulfilled None => handleFileUpload_catch (ErrorObj "File upload failed") w
  | Rejected error => handleFileUpload_catch error w
  end.

(** An upload fails when [uploadFile] rejects or yields nothing. *)
Definition upload_failed (answer : Settled (option FileItem)) : bool :=
  match answer with
  | Fulfilled (Some _) => false
  | _ => true
  end.

(** ** The realtime listener *)

(** The callback given to [.on('postgres_changes', ...)]. *)
Definition on_postgres_changes (payload : Payload) (w : World) : World :=
  set_queryClient (invalidateQueries (messagesKey w)) w.

(** An event arrives on the channel of [clientId]: the callback runs when
    the channel is subscribed. *)
Definition realtime_event (payload : Payload) (w : World) : World :=
  if bool_decide (messages_channel (clientId w) ∈ channels w)
  then on_postgres_changes payload w
  else w.

(** ** What the portal renders *)

Inductive Pane (A : Type) : Type :=
  | LoadingPane
  | ListPane (items : list A).
Arguments LoadingPane {A}.
Arguments ListPane {A} items.

Record View : Type := mkView {
  messagesPane : Pane Message;
  filesPane : Pane FileItem;
  inputDisabled : bool;
  shownToasts : list Toast
}.

(** [isLoading] of a query result: no data yet and a fetch in flight. *)
Definition isLoading (q : option Query) : bool :=
  match q with
  | Some q => bool_decide (data q = None) && bool_decide (fetchStatus q = Fetching)
  | None => false
  end.

(** [data: messages = []] and [data: files = []]. *)
Definition messages_of (q : option Query) : list Message :=
  match q ≫= data with
  | Some (MessagesData ms) => ms
  | _ => []
  end.

Definition files_of (q : option Query) : list FileItem :=
  match q ≫= data with
  | Some (FilesData fs) => fs
  | _ => []
  end.

Definition render (w : World) : View :=
  let messagesQuery := queryClient w !! messagesKey w in
  let filesQuery := queryClient w !! filesKey w in
  {| messagesPane := if isLoading messagesQuery then LoadingPane
                     else ListPane (messages_of messagesQuery);
     filesPane := if isLoading filesQuery then LoadingPane
                  else ListPane (files_of filesQuery);
     inputDisabled := isPending (sendMessageMutation w);
     shownToasts := toasts w |}.

(** The messages the list shows: none while loading. *)
Definition shown_messages (v : View) : list Message :=
  match messagesPane v with
  | LoadingPane => []
  | ListPane ms => ms
  end.

Definition shown_files (v : View) : list FileItem :=
  match filesPane v with
  | LoadingPane => []
  | ListPane fs => fs
  end.

(** ** The message service

    The service behind [sendMessage] and [getMessagesForClient], as far as
    the portal can tell. *)






(** ** Sample states *)


(** A conversation that already holds one message. *)
Definition earlier_message : Message :=
  {| msg_id := 7; msg_clientId := "client-id-1"; msg_content := "hi";
     msg_flag := true; msg_createdAt := 100 |}.

Definition loaded : World :=
  messages_fetched 1 (Fulfilled [earlier_message]) mount.

(** The same conversation with a message being sent. *)
Definition sending : World := mutate "hello" loaded.

(** The message the service stores for it. *)
Definition stored_message : Message :=
  {| msg_id := 8; msg_clientId := "client-id-1"; msg_content := "hello";
     msg_flag := false; msg_createdAt := 101 |}.

Definition report : File :=
  {| name := "report.pdf"; size := 2048; type := "application/pdf" |}.


End Portal.

(** * The portal as an event loop

    Everything that can happen to the mounted portal, and the handler
    that runs for it. *)

Module Loop.
Import Portal.

Inductive Event : Type :=
  | Submit (content : string)
  | SendSettles (answer : Settled Message)
  | UploadStarts (file : File)
  | UploadSettles (file : File) (answer : Settled (option FileItem))
  | ChangeEvent (payload : Payload)
  | MessagesFetched (n : nat) (answer : Settled (list Message))
  | FilesFetched (n : nat) (answer : Settled (list FileItem))
  | Unmount.

Definition step (w : World) (e : Event) : World :=
  match e with
  | Submit content => mutate content w
  | SendSettles answer => mutation_settled answer w
  | UploadStarts file => handleFileUpload_call file w
  | UploadSettles file answer => handleFileUpload_resume file answer w
  | ChangeEvent payload => realtime_event payload w
  | MessagesFetched n answer => messages_fetched n answer w
  | FilesFetched n answer => files_fetched n answer w
  | Unmount => unmount w
  end.

Definition run (w : World) (events : list Event) : World :=
  foldl step w events.

(** The call of [sendMessage] or of [uploadFile] an event makes, if
    any. *)
Definition call_of (clientId : string) (e : Event) : option ServiceCall :=
  match e with
  | Submit content => Some (CallSendMessage clientId content false)
  | UploadStarts file => Some (CallUploadFile file clientId)
  | _ => None
  end.

(** Whether an event is the settling of a fetch. *)
Definition is_fetched (e : Event) : bool :=
  match e with
  | MessagesFetched _ _ | FilesFetched _ _ => true
  | _ => false
  end.

End Loop.

(** * The message input

    [src/components/MessageInput.tsx].  The text of the input is a
    JavaScript string, a sequence of 16-bit code units, since
    [String.prototype.trim] is defined on those. *)

Module Input.

(** The code units [trim] strips: the language's WhiteSpace and
    LineTerminator code points, all of them in the basic plane. *)
Definition isWhiteSpace (c : N) : bool :=
  (  (c =? 0x0009) || (c =? 0x000A) || (c =? 0x000B) || (c =? 0x000C)
  || (c =? 0x000D) || (c =? 0x0020) || (c =? 0x00A0) || (c =? 0x1680)
  || ((0x2000 <=? c) && (c <=? 0x200A))
  || (c =? 0x2028) || (c =? 0x2029) || (c =? 0x202F) || (c =? 0x205F)
  || (c =? 0x3000) || (c =? 0xFEFF))%N.

Fixpoint trimStart (s : list N) : list N :=
  match s with
  | c :: s' => if isWhiteSpace c then trimStart s' else s
  | [] => []
  end.

Definition trimEnd (s : list N) : list N := rev (trimStart (rev s)).

Definition trim (s : list N) : list N := trimEnd (trimStart s).

(** A text made of white space only. *)
Definition blank (s : list N) : Prop := Forall (λ c, isWhiteSpace c = true) s.

(** Truthiness of a string: it is not empty. *)
Definition truthy (s : list N) : bool :=
  match s with
  | [] => false
  | _ => true
  end.

(** [MessageInputProps], with the optional props as the caller gave
    them; [onAttachFile] is recorded by its presence. *)
Record MessageInputProps : Type := mkInputProps {
  onAttachFile : bool;
  placeholder : option string;
  disabled : option bool
}.

Definition placeholder_or_default (props : MessageInputProps) : string :=
  default "Type a message..." (placeholder props).

Definition disabled_or_default (props : MessageInputProps) : bool :=
  default false (disabled props).

(** What a handler did besides setting the state: the argument of
    [onSendMessage] when it was called, whether the focus was scheduled
    ([setTimeout(..., 0)]), whether [e.preventDefault()] was called. *)
Record Outcome : Type := mkOutcome {
  message : list N;
  sent : option (list N);
  focusScheduled : bool;
  defaultPrevented : bool
}.

Definition handleChange (value : list N) (message : list N) : list N := value.

Definition handleSend (message : list N) : Outcome :=
  if truthy (trim message) then
    {| message := []; sent := Some (trim message);
       focusScheduled := true; defaultPrevented := false |}
  else
    {| message := message; sent := None;
       focusScheduled := false; defaultPrevented := false |}.

Definition handleKeyDown (key : string) (shiftKey : bool) (message : list N) : Outcome :=
  if String.eqb key "Enter" && negb shiftKey then
    let o := handleSend message in
    {| message := Input.message o; sent := sent o;
       focusScheduled := focusScheduled o; defaultPrevented := true |}
  else
    {| message := message; sent := None;
       focusScheduled := false; defaultPrevented := false |}.

(** The [disabled] attributes of what is rendered. *)
Definition textareaDisabled (props : MessageInputProps) : bool :=
  disabled_or_default props.

Definition sendButtonDisabled (props : MessageInputProps) (message : list N) : bool :=
  disabled_or_default props || negb (truthy (trim message)).

(** The attach button is rendered only when [onAttachFile] was given. *)
Definition attachButton (props : MessageInputProps) : option bool :=
  if onAttachFile props then Some (disabled_or_default props) else None.

(** The input as the client portal renders it: no attach button, its own
    placeholder, disabled while the mutation is pending. *)
Definition portal_input (w : Portal.World) : MessageInputProps :=
  {| onAttachFile := false;
     placeholder := Some "Type your message...";
     disabled := Some (Portal.isPending (Portal.sendMessageMutation w)) |}.

(** The code units of a string of ASCII characters, for writing
    examples. *)
Definition units (s : string) : list N :=
  map Ascii.N_of_ascii (String.list_ascii_of_string s).

End Input.

(** * The data service

    What a query of the data service settles with: [{ data, error }].  A
    query that must yield one row ([.single()]) settles with the row or
    with an error. *)

Module Supabase.

Record PostgrestError : Type := mkError {
  code : string;
  message : string
}.

Record Response (A : Type) : Type := mkResponse {
  data : option A;
  error : option PostgrestError
}.
Arguments mkResponse {A} data error.
Arguments data {A} r.
Arguments error {A} r.

Inductive Single (A : Type) : Type :=
  | Row (row : A)
  | Failure (error : PostgrestError).
Arguments Row {A} row.
Arguments Failure {A} error.

(** Truthiness of a nullable string column: neither null nor empty. *)
Definition truthy (s : option string) : bool :=
  match s with
  | Some s => negb (String.eqb s "")
  | None => false
  end.

End Supabase.

(** * The client list

    [ClientList], the second component of
    [src/components/OnboardingProtectedRoute.tsx].  The searchable fields
    are JavaScript strings (sequences of code units).  [Number] and
    [toLowerCase] are the language's; the list does not depend on what
    they compute, so they are kept as parameters. *)

Module Clients.
Import Supabase.

Record ProfileRow : Type := mkProfileRow {
  profile_id : string;
  full_name : option string;
  company_id : option string
}.

Record CompanyRow : Type := mkCompanyRow {
  company_row_id : string;
  company_name : string
}.

Record ClientRow : Type := mkClientRow {
  row_id : string;
  row_name : list N;
  row_company : list N;
  row_email : list N;
  row_phone : string;
  last_activity : string
}.

(** [new Date(value)], kept as written. *)
Inductive JSDate : Type := NewDate (value : string).

Inductive Query : Type :=
  | SelectClientProfiles
  | SelectCompanies (ids : list string)
  | SelectClients
  | RpcUnreadCounts.

(** [s.includes(t)]: [t] occurs in [s] as a run of code units. *)
Fixpoint includes (s t : list N) : bool :=
  bool_decide (t `prefix_of` s) ||
  match s with
  | [] => false
  | _ :: s' => includes s' t
  end.

Section ClientList.

Context {Raw Num : Type}.
Variable Number : Raw → Num.
Variable toLowerCase : list N → list N.

Record UnreadRow : Type := mkUnreadRow {
  client_id : string;
  unread_count : Raw
}.

(** The [Client] of a card. *)
Record Client : Type := mkClient {
  id : string;
  name : list N;
  company : list N;
  email : list N;
  phone : string;
  lastActivity : JSDate;
  unreadMessages : option Num;
  pendingFiles : option nat
}.

(** The state of the component and what it has done so far. *)
Record World : Type := mkWorld {
  searchQuery : list N;
  clients : list Client;
  loading : bool;
  toasts : list Portal.Toast;
  console : list string;
  queries : list Query
}.

(** The initial state: [useState("")], [useState([])],
    [useState(true)]. *)
Definition init : World :=
  {| searchQuery := []; clients := []; loading := true;
     toasts := []; console := []; queries := [] |}.

Definition setClients (cs : list Client) (w : World) : World :=
  mkWorld (searchQuery w) cs (loading w) (toasts w) (console w) (queries w).

Definition setLoading (b : bool) (w : World) : World :=
  mkWorld (searchQuery w) (clients w) b (toasts w) (console w) (queries w).

Definition setSearchQuery (q : list N) (w : World) : World :=
  mkWorld q (clients w) (loading w) (toasts w) (console w) (queries w).

Definition toast (t : Portal.Toast) (w : World) : World :=
  mkWorld (searchQuery w) (clients w) (loading w) (toasts w ++ [t]) (console w) (queries w).

Definition console_log (msg : string) (w : World) : World :=
  mkWorld (searchQuery w) (clients w) (loading w) (toasts w) (console w ++ [msg]) (queries w).

Definition query (q : Query) (w : World) : World :=
  mkWorld (searchQuery w) (clients w) (loading w) (toasts w) (console w) (queries w ++ [q]).

(** [companyIds]: the company ids of the profiles that have one, as they
    go into [.in('id', companyIds)]. *)
Definition companyIds (profilesData : list ProfileRow) : list string :=
  omap company_id (List.filter (λ profile, truthy (company_id profile)) profilesData).

(** [messageCountMap]: one [Map.set] per row, a later row of a client
    replacing an earlier one. *)
Definition messageCountMap (messageData : option (list UnreadRow)) : gmap string Num :=
  match messageData with
  | Some rows =>
    foldl (λ m item, <[client_id item := Number (unread_count item)]> m) ∅ rows
  | None => ∅
  end.

Definition formatClient (counts : gmap string Num) (client : ClientRow) : Client :=
  {| id := row_id client;
     name := row_name client;
     company := row_company client;
     email := row_email client;
     phone := row_phone client;
     lastActivity := NewDate (last_activity client);
     unreadMessages := counts !! row_id client;
     pendingFiles := None |}.

(** The [catch] block and the [finally] block. *)
Definition fetchClients_catch (w : World) : World :=
  toast {| Portal.title := "Error fetching clients";
           Portal.description := "Please try again later.";
           Portal.variant := Portal.VDestructive |}
    (console_log "Error fetching clients:" w).

Definition fetchClients_finally (w : World) : World := setLoading false w.

(** [fetchClients], given how its four queries settle.  A query is
    issued only when the ones before it let the function go on. *)
Definition fetchClients
    (profiles : Response (list ProfileRow))
    (companies : Response (list CompanyRow))
    (clientRows : Response (list ClientRow))
    (unread : Response (list UnreadRow))
    (w : World) : World :=
  let w := query SelectClientProfiles (setLoading true w) in
  fetchClients_finally
    match error profiles with
    | Some _ => fetchClients_catch w
    | None =>
      match data profiles with
      | None | Some [] => setLoading false (setClients [] w)
      | Some profilesData =>
        let w := query (SelectCompanies (companyIds profilesData)) w in
        match error companies with
        | Some _ => fetchClients_catch w
        | None =>
          let w := query SelectClients w in
          match error clientRows with
          | Some _ => fetchClients_catch w
          | None =>
            let w := query RpcUnreadCounts w in
            let w := match error unread with
                     | Some _ => console_log "Error fetching unread counts:" w
                     | None => w
                     end in
            let w := console_log "messageData" w in
            match data clientRows with
            | None => fetchClients_catch w
            | Some clientsData =>
              setClients (map (formatClient (messageCountMap (data unread))) clientsData) w
            end
          end
        end
      end
    end.

(** The responses for which [fetchClients] reaches the end of its [try]
    block: three queries without error, at least one client profile, and
    rows of clients. *)
Definition fetched (profiles : Response (list ProfileRow))
    (companies : Response (list CompanyRow))
    (clientRows : Response (list ClientRow)) (rows : list ClientRow) : Prop :=
  error profiles = None ∧ (∃ p ps, data profiles = Some (p :: ps))
  ∧ error companies = None
  ∧ error clientRows = None ∧ data clientRows = Some rows.

(** [filteredClients]. *)
Definition matches (searchQuery : list N) (client : Client) : bool :=
  includes (toLowerCase (name client)) (toLowerCase searchQuery)
  || includes (toLowerCase (company client)) (toLowerCase searchQuery)
  || includes (toLowerCase (email client)) (toLowerCase searchQuery).

Definition filteredClients (w : World) : list Client :=
  List.filter (matches (searchQuery w)) (clients w).

(** What the list area shows. *)
Inductive ListView : Type :=
  | Skeleton (cards : nat)
  | Cards (cs : list Client)
  | NoClientsFound (searchQuery : list N)
  | NoClientsYet.

Definition render (w : World) : ListView :=
  if loading w then Skeleton 6
  else match filteredClients w with
       | _ :: _ => Cards (filteredClients w)
       | [] => if Input.truthy (searchQuery w)
               then NoClientsFound (searchQuery w)
               else NoClientsYet
       end.

End ClientList.

(** ** Sample data *)

(** Lower-casing of the letters A to Z, for examples. *)
Definition lower_ascii (s : list N) : list N :=
  map (λ c, if ((65 <=? c) && (c <=? 90))%N then (c + 32)%N else c) s.

Definition ann : ClientRow :=
  mkClientRow "c1" (Input.units "Ann Lee") (Input.units "Acme")
    (Input.units "ann@acme.test") "555-0101" "2024-03-01T10:00:00Z".

Definition bob : ClientRow :=
  mkClientRow "c2" (Input.units "Bob Ray") (Input.units "Birch Ltd")
    (Input.units "bob@birch.test") "555-0102" "2024-03-02T11:30:00Z".

Definition a_profile : ProfileRow := mkProfileRow "p1" (Some "Pat") (Some "co1").

Definition db_error : PostgrestError := mkError "42501" "permission denied".

End Clients.

(** * The onboarding page

    [Onboarding], the page behind the "/onboarding" route: the check it
    runs when it mounts, its submit handler and what it renders. *)

Module Setup.
Import Supabase.

(** The columns the page reads of a profile and of a company. *)
Record ProfileStatus : Type := mkProfileStatus {
  onboarding_completed : option bool;
  status_company_id : option string
}.

Record CompanyRow : Type := mkCompanyRow {
  company_name : string;
  industry : option string;
  contact_email : option string;
  contact_phone : option string;
  address : option string
}.

(** [CompanyFormValues]: every field but the name is optional. *)
Record CompanyFormValues : Type := mkValues {
  name : string;
  v_industry : option string;
  contactEmail : option string;
  contactPhone : option string;
  v_address : option string
}.

(** The columns written to a company. *)
Record CompanyPayload : Type := mkPayload {
  p_name : string;
  p_industry : option string;
  p_contact_email : option string;
  p_contact_phone : option string;
  p_address : option string
}.

Definition payload_of (values : CompanyFormValues) : CompanyPayload :=
  {| p_name := name values;
     p_industry := v_industry values;
     p_contact_email := contactEmail values;
     p_contact_phone := contactPhone values;
     p_address := v_address values |}.

Inductive Request : Type :=
  | SelectProfileStatus (userId : string)
  | SelectCompany (companyId : string)
  | SelectProfileCompany (userId : string)
  | UpdateCompany (companyId : string) (payload : CompanyPayload)
  | InsertCompany (payload : CompanyPayload)
  | UpdateProfile (userId : string) (company_id : string)
      (onboarding_completed : bool) (role : string).

Record World : Type := mkWorld {
  loading : bool;
  onboardingCompleted : bool;
  form : CompanyFormValues;
  toasts : list Portal.Toast;
  console : list string;
  requests : list Request;
  navigations : list string
}.

(** [a || b] on strings, the left one nullable. *)
Definition or_else (a : option string) (b : string) : string :=
  match a with
  | Some s => if String.eqb s "" then b else s
  | None => b
  end.

(** The page when it mounts: nothing loading, the form at its default
    values, the contact e-mail being that of the user. *)
Definition init (user : option Guard.User) : World :=
  {| loading := false;
     onboardingCompleted := false;
     form := {| name := "";
                v_industry := Some "";
                contactEmail := Some (or_else (Guard.email <$> user) "");
                contactPhone := Some "";
                v_address := Some "" |};
     toasts := []; console := []; requests := []; navigations := [] |}.

Definition setLoading (b : bool) (w : World) : World :=
  mkWorld b (onboardingCompleted w) (form w) (toasts w) (console w)
          (requests w) (navigations w).

Definition setOnboardingCompleted (b : bool) (w : World) : World :=
  mkWorld (loading w) b (form w) (toasts w) (console w)
          (requests w) (navigations w).

Definition form_reset (values : CompanyFormValues) (w : World) : World :=
  mkWorld (loading w) (onboardingCompleted w) values (toasts w) (console w)
          (requests w) (navigations w).

Definition toast (t : Portal.Toast) (w : World) : World :=
  mkWorld (loading w) (onboardingCompleted w) (form w) (toasts w ++ [t]) (console w)
          (requests w) (navigations w).

Definition console_error (msg : string) (w : World) : World :=
  mkWorld (loading w) (onboardingCompleted w) (form w) (toasts w) (console w ++ [msg])
          (requests w) (navigations w).

Definition request (r : Request) (w : World) : World :=
  mkWorld (loading w) (onboardingCompleted w) (form w) (toasts w) (console w)
          (requests w ++ [r]) (navigations w).

Definition navigate (to : string) (w : World) : World :=
  mkWorld (loading w) (onboardingCompleted w) (form w) (toasts w) (console w)
          (requests w) (navigations w ++ [to]).

(** ** The check on mount *)

Definition checkOnboardingStatus_catch (w : World) : World :=
  console_error "Error checking onboarding status:" w.

(** [checkOnboardingStatus], given how its two queries settle.  The
    effect calls it only once the auth context has stopped loading. *)
Definition checkOnboardingStatus (user : option Guard.User)
    (profile : Single ProfileStatus) (companyAnswer : Single CompanyRow)
    (w : World) : World :=
  match user with
  | None => w
  | Some user =>
    let w := request (SelectProfileStatus (Guard.id user)) w in
    match profile with
    | Failure _ => checkOnboardingStatus_catch w
    | Row data =>
      if default false (onboarding_completed data) then
        navigate "/" (setOnboardingCompleted true w)
      else if truthy (status_company_id data) then
        let company_id := default "" (status_company_id data) in
        let w := request (SelectCompany company_id) w in
        match companyAnswer with
        | Failure _ => checkOnboardingStatus_catch w
        | Row companyData =>
          form_reset
            {| name := company_name companyData;
               v_industry := Some (or_else (industry companyData) "");
               contactEmail := Some (or_else (contact_email companyData)
                                       (or_else (Some (Guard.email user)) ""));
               contactPhone := Some (or_else (contact_phone companyData) "");
               v_address := Some (or_else (address companyData) "") |} w
        end
      else w
    end
  end.

Definition mount_effect (authLoading : bool) (user : option Guard.User)
    (profile : Single ProfileStatus) (companyAnswer : Single CompanyRow)
    (w : World) : World :=
  if authLoading then w else checkOnboardingStatus user profile companyAnswer w.

(** ** Submitting the form *)

Definition onSubmit_catch (error : PostgrestError) (w : World) : World :=
  toast {| Portal.title := "Error during onboarding";
           Portal.description :=
             or_else (Some (message error))
                     "There was a problem completing your onboarding.";
           Portal.variant := Portal.VDestructive |} w.

(** The end of the [try] block, from the update of the profile on. *)
Definition onSubmit_profile (user : Guard.User) (companyId : string)
    (profileUpdate : option PostgrestError) (w : World) : World :=
  let w := request (UpdateProfile (Guard.id user) companyId true "Client") w in
  match profileUpdate with
  | Some updateProfileError => onSubmit_catch updateProfileError w
  | None =>
    navigate "/"
      (setOnboardingCompleted true
        (toast {| Portal.title := "Onboarding complete!";
                  Portal.description := "Your account has been fully set up.";
                  Portal.variant := Portal.VDefault |} w))
  end.

(** What the lookup of the profile's company leaves to go on with: the
    error to throw, or [profileData?.company_id].  The error of a missing
    row ("PGRST116") is not thrown. *)
Definition profile_company (profile : Single (option string)) :
    PostgrestError + option string :=
  match profile with
  | Failure profileError =>
    if negb (String.eqb (code profileError) "PGRST116")
    then inl profileError
    else inr None
  | Row company_id => inr company_id
  end.

(** [onSubmit], given how its requests settle: the lookup of the
    profile's company, the update of an existing company, the insertion of
    a new one (yielding its id), the update of the profile. *)
Definition onSubmit (user : option Guard.User) (values : CompanyFormValues)
    (profile : Single (option string))
    (companyUpdate : option PostgrestError)
    (companyInsert : Single string)
    (profileUpdate : option PostgrestError)
    (w : World) : World :=
  match user with
  | None => w
  | Some user =>
    let w := request (SelectProfileCompany (Guard.id user)) (setLoading true w) in
    setLoading false
      match profile_company profile with
      | inl profileError => onSubmit_catch profileError w
      | inr company_id =>
        if truthy company_id then
          let companyId := default "" company_id in
          let w := request (UpdateCompany companyId (payload_of values)) w in
          match companyUpdate with
          | Some updateError => onSubmit_catch updateError w
          | None => onSubmit_profile user companyId profileUpdate w
          end
        else
          let w := request (InsertCompany (payload_of values)) w in
          match companyInsert with
          | Failure insertError => onSubmit_catch insertError w
          | Row newCompanyId => onSubmit_profile user newCompanyId profileUpdate w
          end
      end
  end.

(** ** What the page renders *)

Inductive View : Type :=
  | Spinner
  | Nothing
  | Form (values : CompanyFormValues) (submitDisabled : bool) (submitLabel : string).

(** Rendering without a user calls [navigate("/auth")] and yields
    nothing. *)
Definition render (authLoading : bool) (user : option Guard.User) (w : World) :
    View * World :=
  if authLoading then (Spinner, w)
  else match user with
  | None => (Nothing, navigate "/auth" w)
  | Some _ =>
    (Form (form w) (loading w) (if loading w then "Saving..." else "Complete Setup"), w)
  end.

End Setup.

(** * Properties of the route guard *)

Module GuardFacts.
Import Guard.

Lemma pathname_eqb (location : Location) (p : string) :
  String.eqb (pathname location) p = bool_decide (pathname location = p).
Proof.
  destruct (String.eqb_spec (pathname location) p) as [Heq | Hne].
  - by rewrite bool_decide_eq_true_2.
  - by rewrite bool_decide_eq_false_2.
Qed.

Lemma settling_false (auth : AuthContextValue) (checking : bool) :
  settling auth checking = false → loading auth = false ∧ checking = false.
Proof. unfold settling. intros H. by apply orb_false_elim in H. Qed.

(** Once the session has settled and a user is present, the guard is the
    two onboarding rules and nothing else. *)
Lemma settled_signed_in props auth location checking (u : User) :
  settling auth checking = false →
  user auth = Some u →
  OnboardingProtectedRoute props auth location checking =
    if requireOnboarding_or_default props && negb (onboardingCompleted auth)
       && negb (bool_decide (pathname location = "/onboarding"))
    then RedirectOnboarding location
    else if bool_decide (pathname location = "/onboarding") && onboardingCompleted auth
    then RedirectHome
    else Render.
Proof.
  intros [Hl Hc]%settling_false Hu.
  unfold OnboardingProtectedRoute. rewrite Hl, Hc, Hu, !pathname_eqb. simpl.
  by destruct (requireOnboarding_or_default props), (onboardingCompleted auth),
    (bool_decide (pathname location = "/onboarding")).
Qed.

(** While the auth context loads, the effect leaves [checking] alone, so
    the guard that starts with [checking_init] keeps showing the spinner. *)
Lemma check_while_loading auth status checking :
  loading auth = true → check auth status checking = checking.
Proof. intros Hl. unfold check. rewrite Hl. by destruct (user auth). Qed.

(** Without a user, the effect clears [checking] as soon as loading is
    over. *)
Lemma check_signed_out auth status checking :
  loading auth = false → user auth = None → check auth status checking = false.
Proof. intros Hl Hu. unfold check. by rewrite Hl, Hu. Qed.

(** [C1] When the session has settled and no user is signed in, the guard
    redirects to the authentication path whatever the props, the
    onboarding status and the requested location are, and the redirect
    carries that location in its state. *)
Theorem absent_identity_redirects_to_auth props auth location checking :
  user auth = None →
  settling auth checking = false →
  OnboardingProtectedRoute props auth location checking = RedirectAuth location.
Proof.
  intros Hu [Hl Hc]%settling_false.
  unfold OnboardingProtectedRoute. by rewrite Hl, Hc, Hu.
Qed.

Lemma absent_identity_redirects_to_auth_witness :
  OnboardingProtectedRoute (mkProps (Some false)) (mkAuth None false true)
    (mkLocation "/kanban" "?tab=2" "" "k1") false
  = Navigate "/auth" (Some (mkLocation "/kanban" "?tab=2" "" "k1")) true.
Proof.
  apply (absent_identity_redirects_to_auth (mkProps (Some false))
           (mkAuth None false true) (mkLocation "/kanban" "?tab=2" "" "k1") false);
    reflexivity.
Defined.

(** [C2] With a user signed in, a route that requires onboarding and an
    onboarding that is not completed, the guard renders the children when
    the requested path is already the onboarding path, and otherwise
    redirects to onboarding, carrying the requested location. *)
Theorem incomplete_onboarding_redirects props auth location checking (u : User) :
  settling auth checking = false →
  user auth = Some u →
  requireOnboarding_or_default props = true →
  onboardingCompleted auth = false →
  OnboardingProtectedRoute props auth location checking =
    if bool_decide (pathname location = "/onboarding")
    then Render
    else RedirectOnboarding location.
Proof.
  intros Hs Hu Hr Hc. rewrite (settled_signed_in _ _ _ _ u Hs Hu), Hr, Hc.
  by destruct (bool_decide (pathname location = "/onboarding")).
Qed.

Lemma incomplete_onboarding_redirects_witness :
  OnboardingProtectedRoute (mkProps (Some true))
    (mkAuth (Some (mkUser "u1" "u1@example.com")) false false)
    (mkLocation "/kanban" "" "" "k1") false
  = Navigate "/onboarding" (Some (mkLocation "/kanban" "" "" "k1")) true.
Proof.
  apply (incomplete_onboarding_redirects (mkProps (Some true))
           (mkAuth (Some (mkUser "u1" "u1@example.com")) false false)
           (mkLocation "/kanban" "" "" "k1") false (mkUser "u1" "u1@example.com"));
    reflexivity.
Defined.

(** [C3], as the specification states it, fails: a route declared with
    [requireOnboarding=false] and requested at the onboarding path by a
    user whose onboarding is completed is redirected home, not rendered. *)
Lemma not_required_onboarding_path_completed :
  OnboardingProtectedRoute (mkProps (Some false))
    (mkAuth (Some (mkUser "u1" "u1@example.com")) false true)
    (mkLocation "/onboarding" "" "" "k1") false = RedirectHome
  ∧ OnboardingProtectedRoute (mkProps (Some false))
      (mkAuth (Some (mkUser "u1" "u1@example.com")) false true)
      (mkLocation "/onboarding" "" "" "k1") false ≠ Render.
Proof. split; [reflexivity | discriminate]. Qed.

(** [C3], amended: with a user signed in and a route declared with
    [requireOnboarding=false], the guard never redirects to onboarding;
    it redirects home when the requested path is the onboarding path and
    onboarding is completed, and renders the children in every other
    case. *)
Theorem not_required_skips_onboarding_redirect props auth location checking (u : User) :
  settling auth checking = false →
  user auth = Some u →
  requireOnboarding props = Some false →
  OnboardingProtectedRoute props auth location checking =
    if bool_decide (pathname location = "/onboarding") && onboardingCompleted auth
    then RedirectHome
    else Render.
Proof.
  intros Hs Hu Hr. rewrite (settled_signed_in _ _ _ _ u Hs Hu).
  unfold requireOnboarding_or_default. by rewrite Hr.
Qed.

Lemma not_required_skips_onboarding_redirect_witness :
  OnboardingProtectedRoute (mkProps (Some false))
    (mkAuth (Some (mkUser "u1" "u1@example.com")) false false)
    (mkLocation "/kanban" "" "" "k1") false
  = Children.
Proof.
  apply (not_required_skips_onboarding_redirect (mkProps (Some false))
           (mkAuth (Some (mkUser "u1" "u1@example.com")) false false)
           (mkLocation "/kanban" "" "" "k1") false (mkUser "u1" "u1@example.com"));
    reflexivity.
Defined.

(** [C4] With a user signed in whose onboarding is completed, the guard
    redirects home when the requested path is the onboarding path and
    renders the children on every other path, "/kanban" among them. *)
Theorem completed_onboarding_gate props auth location checking (u : User) :
  settling auth checking = false →
  user auth = Some u →
  onboardingCompleted auth = true →
  OnboardingProtectedRoute props auth location checking =
    if bool_decide (pathname location = "/onboarding")
    then RedirectHome
    else Render.
Proof.
  intros Hs Hu Hc. rewrite (settled_signed_in _ _ _ _ u Hs Hu), Hc.
  rewrite andb_false_r, andb_true_r. done.
Qed.

Lemma completed_onboarding_gate_witness :
  OnboardingProtectedRoute (mkProps None)
    (mkAuth (Some (mkUser "u1" "u1@example.com")) false true)
    (mkLocation "/onboarding" "" "" "k1") false = Navigate "/" None true
  ∧ OnboardingProtectedRoute (mkProps None)
      (mkAuth (Some (mkUser "u1" "u1@example.com")) false true)
      (mkLocation "/kanban" "" "" "k2") false = Children.
Proof.
  split.
  - apply (completed_onboarding_gate (mkProps None)
             (mkAuth (Some (mkUser "u1" "u1@example.com")) false true)
             (mkLocation "/onboarding" "" "" "k1") false (mkUser "u1" "u1@example.com"));
      reflexivity.
  - apply (completed_onboarding_gate (mkProps None)
             (mkAuth (Some (mkUser "u1" "u1@example.com")) false true)
             (mkLocation "/kanban" "" "" "k2") false (mkUser "u1" "u1@example.com"));
      reflexivity.
Defined.

(** [C9] While the session is settling (the auth context is loading, or
    the guard's own check has not finished), the guard returns the spinner
    whatever else it is given: neither the children nor any redirect is
    produced. *)
Theorem settling_shows_loader props auth location checking :
  settling auth checking = true →
  OnboardingProtectedRoute props auth location checking = Loader
  ∧ is_decision (OnboardingProtectedRoute props auth location checking) = false.
Proof.
  unfold settling, OnboardingProtectedRoute. intros ->. done.
Qed.

Lemma settling_shows_loader_witness :
  OnboardingProtectedRoute (mkProps None) (mkAuth None true false)
    (mkLocation "/kanban" "" "" "k1") checking_init = Loader
  ∧ is_decision (OnboardingProtectedRoute (mkProps None) (mkAuth None true false)
      (mkLocation "/kanban" "" "" "k1") checking_init) = false.
Proof.
  apply (settling_shows_loader (mkProps None) (mkAuth None true false)
           (mkLocation "/kanban" "" "" "k1") checking_init).
  reflexivity.
Defined.

(** A guard without the prop, a signed-in user, onboarding not completed. *)
Lemma default_guard_incomplete (u : User) (location : Location) :
  OnboardingProtectedRoute (mkProps None) (mkAuth (Some u) false false) location false =
    if bool_decide (pathname location = "/onboarding")
    then Render
    else RedirectOnboarding location.
Proof.
  rewrite (settled_signed_in _ _ _ _ u) by done. cbn.
  by destruct (bool_decide (pathname location = "/onboarding")).
Qed.

(** [C10] A guard that is given no [requireOnboarding] behaves in every
    state as one given [requireOnboarding=true]; every guarded route of
    [App] is such a guard, so each of them sends a signed-in user with an
    incomplete onboarding to the onboarding path from every other path. *)
Theorem unspecified_route_requires_onboarding :
  requireOnboarding_or_default (mkProps None) = true
  ∧ (∀ auth location checking,
      OnboardingProtectedRoute (mkProps None) auth location checking =
      OnboardingProtectedRoute (mkProps (Some true)) auth location checking)
  ∧ Forall (λ r, match Routes.guard_props r with
                 | Some props => requireOnboarding props = None
                 | None => True
                 end) Routes.App
  ∧ Forall (λ r, match Routes.guard_props r with
                 | Some props =>
                   ∀ u location,
                     OnboardingProtectedRoute props (mkAuth (Some u) false false)
                       location false =
                     if bool_decide (pathname location = "/onboarding")
                     then Render
                     else RedirectOnboarding location
                 | None => True
                 end) Routes.App.
Proof.
  split; [done |]. split; [done |]. split.
  - by repeat constructor.
  - unfold Routes.App.
    repeat (apply Forall_cons_2 || apply Forall_nil_2);
      try exact I; exact default_guard_incomplete.
Qed.

End GuardFacts.

(** * Properties of the portal's data layer *)

Module PortalFacts.
Import Portal.

(** ** The query client *)

Lemma lookup_invalidateQueries (queryKey k : list string) (cache : gmap (list string) Query) :
  invalidateQueries queryKey cache !! k =
    (λ q, if bool_decide (queryKey `prefix_of` k) then invalidate q else q) <$> cache !! k.
Proof.
  unfold invalidateQueries. rewrite map_lookup_imap.
  by destruct (cache !! k).
Qed.

Lemma lookup_invalidateQueries_eq (k : list string) (cache : gmap (list string) Query) :
  invalidateQueries k cache !! k = invalidate <$> cache !! k.
Proof.
  rewrite lookup_invalidateQueries, bool_decide_eq_true_2; done.
Qed.

Lemma lookup_invalidateQueries_ne (queryKey k : list string) (cache : gmap (list string) Query) :
  ¬ queryKey `prefix_of` k →
  invalidateQueries queryKey cache !! k = cache !! k.
Proof.
  intros Hne. rewrite lookup_invalidateQueries, bool_decide_eq_false_2 by done.
  by destruct (cache !! k).
Qed.

(** The messages key and the files key of a client never match one
    another. *)
Lemma messagesKey_not_prefix_filesKey (w : World) :
  ¬ messagesKey w `prefix_of` filesKey w.
Proof. intros [k Hk]. discriminate Hk. Qed.

Lemma filesKey_not_prefix_messagesKey (w : World) :
  ¬ filesKey w `prefix_of` messagesKey w.
Proof. intros [k Hk]. discriminate Hk. Qed.

Lemma messagesKey_ne_filesKey (w : World) : messagesKey w ≠ filesKey w.
Proof. discriminate. Qed.

(** Invalidation keeps the data. *)
Lemma messages_of_invalidate (q : option Query) :
  messages_of (invalidate <$> q) = messages_of q.
Proof. by destruct q. Qed.

Lemma files_of_invalidate (q : option Query) :
  files_of (invalidate <$> q) = files_of q.
Proof. by destruct q. Qed.

Lemma isLoading_invalidate (q : Query) :
  isLoading (Some (invalidate q)) = bool_decide (data q = None).
Proof. unfold isLoading. cbn. by rewrite andb_true_r. Qed.

(** What invalidation does to one query: it is marked and fetching, with
    the data it had; its query function is called once more when it holds
    data or is idle, and not at all while its first fetch is in flight. *)
Lemma invalidate_spec (q : Query) :
  isInvalidated (invalidate q) = true
  ∧ fetchStatus (invalidate q) = Fetching
  ∧ data (invalidate q) = data q
  ∧ (is_Some (data q) ∨ fetchStatus q = Idle → fetches (invalidate q) = S (fetches q))
  ∧ (data q = None ∧ fetchStatus q = Fetching → fetches (invalidate q) = fetches q).
Proof.
  repeat split; cbn; unfold refetches.
  - intros [[d Hd] | Hi].
    + rewrite (bool_decide_eq_false_2 (data q = None)) by (by rewrite Hd).
      by rewrite andb_false_r.
    + rewrite (bool_decide_eq_false_2 (fetchStatus q = Fetching)) by (by rewrite Hi).
      done.
  - intros [Hd Hf]. by rewrite !bool_decide_eq_true_2.
Qed.

(** ** Sending a message and uploading a file: what is shown meanwhile *)

(** [C5], as the specification states it, fails: after "hello" is
    submitted to a loaded conversation and before the service answers, the
    message list still shows what the cache holds; no entry with the
    submitted content is rendered. *)
Lemma submitted_message_not_rendered :
  shown_messages (render sending) = [earlier_message]
  ∧ ¬ ∃ m, m ∈ shown_messages (render sending)
           ∧ msg_content m = "hello".
Proof.
  assert (shown_messages (render sending) = [earlier_message]) as ->
    by (vm_compute; reflexivity).
  split; [done |].
  intros (m & ->%list_elem_of_singleton & Hc). discriminate Hc.
Qed.

(** [C5], amended: submitting a message makes the mutation pending at
    once, and all the portal shows of the submit is the disabled message
    input; the submit adds no entry of its own: right after it the query
    cache, and with it the rendered message and file lists, is what it was
    before.  Starting an upload changes nothing that is rendered. *)
Theorem submit_shows_pending_only (w : World) (content : string) (file : File) :
  status (sendMessageMutation (mutate content w)) = MPending
  ∧ variables (sendMessageMutation (mutate content w)) = Some content
  ∧ inputDisabled (render (mutate content w)) = true
  ∧ queryClient (mutate content w) = queryClient w
  ∧ messagesPane (render (mutate content w)) = messagesPane (render w)
  ∧ filesPane (render (mutate content w)) = filesPane (render w)
  ∧ shownToasts (render (mutate content w)) = shownToasts (render w)
  ∧ render (handleFileUpload_call file w) = render w.
Proof. repeat split. Qed.

(** ** The realtime listener *)

(** [C6], as the specification states it, fails: an event that arrives
    on the subscribed channel before the first load of the conversation
    has answered triggers no re-fetch.  The messages query is marked, but
    its query function has been called once, at mount, and is not called
    again; when that one call answers, the query is idle and no longer
    marked. *)
Lemma change_event_before_first_answer :
  let w1 := realtime_event (mkPayload "INSERT" [("content", "hi")] []) mount in
  queryClient mount !! messagesKey mount = Some new_query
  ∧ queryClient w1 !! messagesKey mount
    = Some {| data := None; isInvalidated := true;
              fetchStatus := Fetching; fetches := 1 |}
  ∧ queryClient (messages_fetched 1 (Fulfilled []) w1) !! messagesKey mount
    = Some {| data := Some (MessagesData []); isInvalidated := false;
              fetchStatus := Idle; fetches := 1 |}.
Proof. vm_compute. done. Qed.

(** [C6], amended: whatever the payload of an event that arrives on the
    subscribed channel, the listener invalidates the messages query of the
    client: the query is marked and fetching, and its data is what it was.
    Its query function is called again when the query holds data or is
    idle; while its first fetch is still in flight it is not, and that
    fetch goes on.  The files query is not touched, and the state after
    the event does not depend on the payload. *)
Theorem change_event_invalidates (payload : Payload) (w : World) (q : Query) :
  messages_channel (clientId w) ∈ channels w →
  queryClient w !! messagesKey w = Some q →
  (∃ q', queryClient (realtime_event payload w) !! messagesKey w = Some q'
         ∧ isInvalidated q' = true
         ∧ fetchStatus q' = Fetching
         ∧ data q' = data q
         ∧ (is_Some (data q) ∨ fetchStatus q = Idle → fetches q' = S (fetches q))
         ∧ (data q = None ∧ fetchStatus q = Fetching → fetches q' = fetches q))
  ∧ queryClient (realtime_event payload w) !! filesKey w = queryClient w !! filesKey w
  ∧ (∀ payload', realtime_event payload' w = realtime_event payload w).
Proof.
  intros Hsub Hq. unfold realtime_event.
  rewrite bool_decide_eq_true_2 by done.
  unfold on_postgres_changes. cbn. split; [| split].
  - exists (invalidate q).
    fold (messagesKey w). rewrite lookup_invalidateQueries_eq, Hq.
    split; [done |]. apply invalidate_spec.
  - fold (messagesKey w) (filesKey w).
    apply lookup_invalidateQueries_ne, messagesKey_not_prefix_filesKey.
  - done.
Qed.

Lemma change_event_invalidates_witness :
  ∃ q', queryClient (realtime_event
                       (mkPayload "UPDATE" [("read", "true")] [("read", "false")])
                       loaded) !! messagesKey loaded = Some q'
        ∧ isInvalidated q' = true
        ∧ fetchStatus q' = Fetching
        ∧ data q' = Some (MessagesData [earlier_message])
        ∧ fetches q' = 2.
Proof.
  destruct (change_event_invalidates
              (mkPayload "UPDATE" [("read", "true")] [("read", "false")]) loaded
              (mkQuery (Some (MessagesData [earlier_message])) false Idle 1))
    as [(q' & Hq' & Hi & Hf & Hd & Hn & _) _].
  - vm_compute. constructor.
  - vm_compute. reflexivity.
  - exists q'.
    exact (conj Hq' (conj Hi (conj Hf (conj Hd (Hn (or_intror eq_refl)))))).
Defined.

(** ** A message that was sent *)

(** A fetch that settles successfully while it is the one in flight
    replaces the data of the query by its result. *)
Lemma settle_fulfilled (q : Query) (d : QueryData) :
  fetchStatus q = Fetching →
  settle (fetches q) (Fulfilled d) q =
    {| data := Some d; isInvalidated := false;
       fetchStatus := Idle; fetches := fetches q |}.
Proof.
  intros Hf. unfold settle.
  by rewrite !bool_decide_eq_true_2.
Qed.

(** The result of a fetch that has been cancelled is dropped. *)
Lemma settle_cancelled (q : Query) (n : nat) (r : Settled QueryData) :
  n ≠ fetches q → settle n r q = q.
Proof.
  intros Hn. unfold settle.
  rewrite (bool_decide_eq_false_2 (fetches q = n)) by done.
  by rewrite andb_false_r.
Qed.









(** ** An upload that failed *)

(** [C8] When [uploadFile] rejects or yields nothing, the handler leaves
    the query cache as it is (the files query is not invalidated, and the
    file list shown is the one shown before the upload started), reports
    the failure in a destructive "Upload failed" toast and on the console,
    and calls no service again: the whole upload made one call of
    [uploadFile]. *)
Theorem failed_upload_reported (w : World) (file : File)
    (answer : Settled (option FileItem)) :
  upload_failed answer = true →
  let w1 := handleFileUpload_call file w in
  let w2 := handleFileUpload_resume file answer w1 in
  queryClient w2 = queryClient w
  ∧ filesPane (render w1) = filesPane (render w)
  ∧ filesPane (render w2) = filesPane (render w)
  ∧ (∃ t, toasts w2 = (toasts w ++ [t])%list
          ∧ title t = "Upload failed" ∧ variant t = VDestructive)
  ∧ console w2 = (console w ++ ["Error uploading file:"])%list
  ∧ calls w1 = (calls w ++ [CallUploadFile file (clientId w)])%list
  ∧ calls w2 = calls w1.
Proof.
  intros Hf w1 w2. subst w1 w2.
  destruct answer as [[uploaded |] | error]; [discriminate Hf | |];
    repeat split; eexists; repeat split.
Qed.

Lemma failed_upload_reported_witness :
  let w2 := handleFileUpload_resume report (Rejected (ErrorObj "Bucket not found"))
              (handleFileUpload_call report loaded) in
  queryClient w2 = queryClient loaded
  ∧ filesPane (render (handleFileUpload_call report loaded)) = filesPane (render loaded)
  ∧ filesPane (render w2) = filesPane (render loaded)
  ∧ (∃ t, toasts w2 = (toasts loaded ++ [t])%list
          ∧ title t = "Upload failed" ∧ variant t = VDestructive)
  ∧ console w2 = (console loaded ++ ["Error uploading file:"])%list
  ∧ calls (handleFileUpload_call report loaded)
    = (calls loaded ++ [CallUploadFile report (clientId loaded)])%list
  ∧ calls w2 = calls (handleFileUpload_call report loaded).
Proof.
  apply (failed_upload_reported loaded report (Rejected (ErrorObj "Bucket not found"))).
  reflexivity.
Defined.

End PortalFacts.

(** * More on the route guard *)

Module GuardMore.
Import Guard.

(** The guard renders its children only to a signed-in user of a settled
    session, and then onboarding is completed, or not required by the
    route, or the page requested is the onboarding page itself; a user
    whose onboarding is completed is not shown the onboarding page. *)
Theorem children_only_when_entitled props auth location checking :
  OnboardingProtectedRoute props auth location checking = Children →
  is_Some (user auth)
  ∧ loading auth = false
  ∧ checking = false
  ∧ (onboardingCompleted auth = true
     ∨ requireOnboarding_or_default props = false
     ∨ pathname location = "/onboarding")
  ∧ ¬ (pathname location = "/onboarding" ∧ onboardingCompleted auth = true).
Proof.
  unfold OnboardingProtectedRoute.
  rewrite !GuardFacts.pathname_eqb.
  destruct (loading auth), checking; try discriminate.
  destruct (user auth) as [u |]; try discriminate.
  destruct (requireOnboarding_or_default props), (onboardingCompleted auth);
    case_bool_decide; cbn; try discriminate; intros _;
    repeat split; eauto; intros [? ?]; congruence.
Qed.

Lemma children_only_when_entitled_witness :
  is_Some (Some (mkUser "u1" "u1@example.com"))
  ∧ false = false
  ∧ false = false
  ∧ (true = true ∨ true = false ∨ "/files" = "/onboarding")
  ∧ ¬ ("/files" = "/onboarding" ∧ true = true).
Proof.
  apply (children_only_when_entitled (mkProps None)
           (mkAuth (Some (mkUser "u1" "u1@example.com")) false true)
           (mkLocation "/files" "" "" "k1") false).
  reflexivity.
Defined.

(** Whenever the guard redirects, it replaces the history entry, and the
    redirect is one of three: to "/auth" with the requested location, and
    only without a user; to "/onboarding" with the requested location; or
    to "/" without one. *)
Theorem redirect_shape props auth location checking to from replace :
  OnboardingProtectedRoute props auth location checking = Navigate to from replace →
  replace = true
  ∧ ((to = "/auth" ∧ from = Some location ∧ user auth = None)
     ∨ (to = "/onboarding" ∧ from = Some location ∧ is_Some (user auth))
     ∨ (to = "/" ∧ from = None ∧ is_Some (user auth))).
Proof.
  unfold OnboardingProtectedRoute.
  destruct (loading auth), checking; try discriminate.
  destruct (user auth) as [u |]; cbn.
  - destruct (requireOnboarding_or_default props), (onboardingCompleted auth),
      (String.eqb (pathname location) "/onboarding"); cbn; try discriminate;
      intros [= <- <- <-]; eauto 10.
  - intros [= <- <- <-]. eauto 10.
Qed.

Lemma redirect_shape_witness :
  true = true
  ∧ (("/onboarding" = "/auth"
      ∧ Some (mkLocation "/files" "" "#top" "k1") = Some (mkLocation "/files" "" "#top" "k1")
      ∧ Some (mkUser "u1" "u1@example.com") = None)
     ∨ ("/onboarding" = "/onboarding"
        ∧ Some (mkLocation "/files" "" "#top" "k1") = Some (mkLocation "/files" "" "#top" "k1")
        ∧ is_Some (Some (mkUser "u1" "u1@example.com")))
     ∨ ("/onboarding" = "/"
        ∧ Some (mkLocation "/files" "" "#top" "k1") = None
        ∧ is_Some (Some (mkUser "u1" "u1@example.com")))).
Proof.
  apply (redirect_shape (mkProps None)
           (mkAuth (Some (mkUser "u1" "u1@example.com")) false false)
           (mkLocation "/files" "" "#top" "k1") false
           "/onboarding" (Some (mkLocation "/files" "" "#top" "k1")) true).
  reflexivity.
Defined.

(** A signed-in user is never redirected to the path already requested:
    the guard cannot send such a user round in a circle on its own. *)
Theorem signed_in_never_redirected_in_place props auth location checking
    (u : User) to from replace :
  user auth = Some u →
  OnboardingProtectedRoute props auth location checking = Navigate to from replace →
  to ≠ pathname location.
Proof.
  intros Hu. unfold OnboardingProtectedRoute. rewrite Hu.
  destruct (loading auth), checking; try discriminate. cbn.
  destruct (String.eqb_spec (pathname location) "/onboarding") as [Hp | Hp];
    destruct (requireOnboarding_or_default props), (onboardingCompleted auth);
    cbn; try discriminate; intros [= <- <- <-]; rewrite ?Hp; try discriminate;
    congruence.
Qed.

Lemma signed_in_never_redirected_in_place_witness :
  "/" ≠ pathname (mkLocation "/onboarding" "" "" "k1").
Proof.
  apply (signed_in_never_redirected_in_place (mkProps (Some false))
           (mkAuth (Some (mkUser "u1" "u1@example.com")) false true)
           (mkLocation "/onboarding" "" "" "k1") false
           (mkUser "u1" "u1@example.com") "/" None true);
    reflexivity.
Defined.

(** Once the auth context has stopped loading and the guard's check has
    gone through (the status call fulfilled, or there is no user to check),
    the guard stops showing the spinner and decides. *)
Theorem check_done_decides props auth location checking (status : Settled unit) :
  loading auth = false →
  (user auth = None ∨ ∃ v, status = Fulfilled v) →
  check auth status checking = false
  ∧ is_decision (OnboardingProtectedRoute props auth location
                   (check auth status checking)) = true.
Proof.
  intros Hl Hs.
  assert (check auth status checking = false) as Hc.
  { unfold check. rewrite Hl.
    destruct Hs as [-> | [v ->]]; [done |]. by destruct (user auth). }
  split; [done |].
  unfold OnboardingProtectedRoute. rewrite Hc, Hl. cbn.
  destruct (user auth); [| done].
  by destruct (requireOnboarding_or_default props), (onboardingCompleted auth),
    (String.eqb (pathname location) "/onboarding").
Qed.

Lemma check_done_decides_witness :
  check (mkAuth (Some (mkUser "u1" "u1@example.com")) false true)
        (Fulfilled ()) checking_init = false
  ∧ is_decision (OnboardingProtectedRoute (mkProps None)
       (mkAuth (Some (mkUser "u1" "u1@example.com")) false true)
       (mkLocation "/" "" "" "k1")
       (check (mkAuth (Some (mkUser "u1" "u1@example.com")) false true)
              (Fulfilled ()) checking_init)) = true.
Proof.
  apply (check_done_decides (mkProps None)
           (mkAuth (Some (mkUser "u1" "u1@example.com")) false true)
           (mkLocation "/" "" "" "k1") checking_init (Fulfilled ())).
  - reflexivity.
  - right. exists (). reflexivity.
Defined.

(** When the status call of the check rejects, [setChecking(false)] is
    never reached: a guard that was still checking goes on showing the
    spinner to its signed-in user. *)
Theorem check_rejected_keeps_spinner props auth location (u : User) (e : Thrown) :
  user auth = Some u →
  check auth (Rejected e) checking_init = true
  ∧ OnboardingProtectedRoute props auth location
      (check auth (Rejected e) checking_init) = Loader.
Proof.
  intros Hu.
  assert (check auth (Rejected e) checking_init = true) as Hc.
  { unfold check. rewrite Hu. by destruct (loading auth). }
  split; [done |].
  unfold OnboardingProtectedRoute. by rewrite Hc, orb_true_r.
Qed.

Lemma check_rejected_keeps_spinner_witness :
  check (mkAuth (Some (mkUser "u1" "u1@example.com")) false true)
        (Rejected (ErrorObj "network")) checking_init = true
  ∧ OnboardingProtectedRoute (mkProps None)
      (mkAuth (Some (mkUser "u1" "u1@example.com")) false true)
      (mkLocation "/" "" "" "k1")
      (check (mkAuth (Some (mkUser "u1" "u1@example.com")) false true)
             (Rejected (ErrorObj "network")) checking_init) = Loader.
Proof.
  apply (check_rejected_keeps_spinner (mkProps None)
           (mkAuth (Some (mkUser "u1" "u1@example.com")) false true)
           (mkLocation "/" "" "" "k1") (mkUser "u1" "u1@example.com")
           (ErrorObj "network")).
  reflexivity.
Defined.

End GuardMore.

(** * More on the portal's data layer *)

Module PortalMore.
Import Portal Loop.

(** ** What invalidation and settling do to one key *)

Lemma data_invalidateQueries (queryKey k : list string) (cache : gmap (list string) Query) :
  data <$> (invalidateQueries queryKey cache !! k) = data <$> (cache !! k).
Proof.
  rewrite PortalFacts.lookup_invalidateQueries.
  destruct (cache !! k) as [q |]; [| done]. cbn.
  by case_bool_decide.
Qed.

Lemma is_Some_invalidateQueries (queryKey k : list string) (cache : gmap (list string) Query) :
  is_Some (invalidateQueries queryKey cache !! k) ↔ is_Some (cache !! k).
Proof.
  rewrite PortalFacts.lookup_invalidateQueries. apply fmap_is_Some.
Qed.

Lemma is_Some_alter (f : Query → Query) (key k : list string)
    (cache : gmap (list string) Query) :
  is_Some (alter f key cache !! k) ↔ is_Some (cache !! k).
Proof.
  rewrite lookup_alter. case_decide as Hk; [| done]. rewrite Hk. apply fmap_is_Some.
Qed.

(** ** A message that could not be sent *)

(** When the pending send-message mutation fails, it ends in the error
    state and the input is enabled again; the failure is reported in a
    destructive "Error" toast; the query cache is left as it is and no
    service is called again. *)
Theorem failed_send_reported (w : World) (e : Thrown) :
  status (sendMessageMutation w) = MPending →
  let w1 := mutation_settled (Rejected e) w in
  status (sendMessageMutation w1) = MError
  ∧ inputDisabled (render w1) = false
  ∧ queryClient w1 = queryClient w
  ∧ toasts w1 = (toasts w ++ [ {| title := "Error";
                                  description := "Failed to send message. Please try again.";
                                  variant := VDestructive |} ])%list
  ∧ calls w1 = calls w.
Proof.
  intros Hp w1. subst w1. unfold mutation_settled. rewrite Hp. done.
Qed.

Lemma failed_send_reported_witness :
  let w1 := mutation_settled (Rejected (ErrorObj "offline")) sending in
  status (sendMessageMutation w1) = MError
  ∧ inputDisabled (render w1) = false
  ∧ queryClient w1 = queryClient sending
  ∧ toasts w1 = (toasts sending ++ [ {| title := "Error";
                                  description := "Failed to send message. Please try again.";
                                  variant := VDestructive |} ])%list
  ∧ calls w1 = calls sending.
Proof.
  apply (failed_send_reported sending (ErrorObj "offline")).
  reflexivity.
Defined.

(** ** A file that was uploaded *)

(** When [uploadFile] yields the uploaded file, the files query of the
    client is invalidated: it is marked and fetching, with the data it
    had, and its query function is called again when the query holds data
    or is idle, but not while its first fetch is still in flight.  The
    messages query is not touched; a toast names the file; neither
    [sendMessage] nor [uploadFile] is called again. *)
Theorem uploaded_file_refetches_files (w : World) (q : Query) (file : File)
    (uploaded : FileItem) :
  queryClient w !! filesKey w = Some q →
  let w1 := handleFileUpload_resume file (Fulfilled (Some uploaded)) w in
  (∃ q', queryClient w1 !! filesKey w = Some q'
         ∧ isInvalidated q' = true
         ∧ fetchStatus q' = Fetching
         ∧ data q' = data q
         ∧ (is_Some (data q) ∨ fetchStatus q = Idle → fetches q' = S (fetches q))
         ∧ (data q = None ∧ fetchStatus q = Fetching → fetches q' = fetches q))
  ∧ queryClient w1 !! messagesKey w = queryClient w !! messagesKey w
  ∧ toasts w1 = (toasts w ++ [ {| title := "File uploaded";
                                  description := name file ++ " has been uploaded successfully.";
                                  variant := VDefault |} ])%list
  ∧ console w1 = console w
  ∧ calls w1 = calls w.
Proof.
  intros Hq. cbn. split.
  - exists (invalidate q). rewrite PortalFacts.lookup_invalidateQueries_eq, Hq.
    split; [done |]. apply PortalFacts.invalidate_spec.
  - rewrite PortalFacts.lookup_invalidateQueries_ne
      by apply PortalFacts.filesKey_not_prefix_messagesKey.
    done.
Qed.

Lemma uploaded_file_refetches_files_witness :
  let w1 := handleFileUpload_resume report
              (Fulfilled (Some (mkFileItem 1 "report.pdf" "client-id-1" 2048
                                  "application/pdf"))) loaded in
  ∃ q', queryClient w1 !! filesKey loaded = Some q'
        ∧ isInvalidated q' = true
        ∧ fetchStatus q' = Fetching
        ∧ data q' = None
        ∧ fetches q' = 1.
Proof.
  destruct (uploaded_file_refetches_files loaded new_query report
              (mkFileItem 1 "report.pdf" "client-id-1" 2048 "application/pdf"))
    as [(q' & Hq' & Hi & Hf & Hd & _ & Hn) _].
  - vm_compute. reflexivity.
  - exists q'.
    exact (conj Hq' (conj Hi (conj Hf (conj Hd (Hn (conj eq_refl eq_refl)))))).
Defined.

(** ** The files that are listed *)

(** When the fetch in flight for the files query settles with the files
    of the service, the file list shows those of them that belong to this
    client, in the order of the service, and no file of another client. *)
Theorem files_fetch_shows_own_files (w : World) (q : Query) (allFiles : list FileItem) :
  queryClient w !! filesKey w = Some q →
  fetchStatus q = Fetching →
  let w1 := files_fetched (fetches q) (Fulfilled allFiles) w in
  shown_files (render w1)
    = List.filter (λ file, String.eqb (file_clientId file) (clientId w)) allFiles
  ∧ Forall (λ file, file_clientId file = clientId w) (shown_files (render w1))
  ∧ (∀ file, file ∈ allFiles ∧ file_clientId file = clientId w
             ↔ file ∈ shown_files (render w1)).
Proof.
  intros Hq Hf w1.
  assert (shown_files (render w1)
    = List.filter (λ file, String.eqb (file_clientId file) (clientId w)) allFiles) as ->.
  { subst w1. unfold shown_files, render, filesPane, files_fetched.
    cbn. unfold filesKey in *. cbn.
    rewrite lookup_alter_eq, Hq. cbn.
    rewrite (PortalFacts.settle_fulfilled q) by done. done. }
  split; [done |]. split.
  - apply List.Forall_forall. intros file [_ Hc]%filter_In.
    by apply String.eqb_eq.
  - intros file. rewrite !list_elem_of_In, filter_In, String.eqb_eq. done.
Qed.

Lemma files_fetch_shows_own_files_witness :
  let mine := mkFileItem 1 "a.pdf" "client-id-1" 10 "application/pdf" in
  let other := mkFileItem 2 "b.pdf" "client-id-2" 20 "application/pdf" in
  shown_files (render (files_fetched 1 (Fulfilled [other; mine; other]) mount)) = [mine].
Proof.
  refine (proj1 (files_fetch_shows_own_files mount new_query
            [mkFileItem 2 "b.pdf" "client-id-2" 20 "application/pdf";
             mkFileItem 1 "a.pdf" "client-id-1" 10 "application/pdf";
             mkFileItem 2 "b.pdf" "client-id-2" 20 "application/pdf"] _ _)).
  - vm_compute. reflexivity.
  - reflexivity.
Defined.

(** ** The listener after the portal has gone *)

Lemma unmount_unsubscribes (w : World) :
  messages_channel (clientId w) ∉ channels (unmount w).
Proof.
  unfold unmount. cbn. rewrite list_elem_of_In, filter_In.
  intros [_ Hn]. rewrite bool_decide_eq_true_2 in Hn; done.
Qed.

(** The cleanup of the subscription effect removes the channel: an event
    that arrives afterwards changes nothing, whatever the channels were
    and whatever it carries. *)
Theorem unmounted_ignores_events (w : World) (payload : Payload) :
  realtime_event payload (unmount w) = unmount w.
Proof.
  unfold realtime_event.
  rewrite bool_decide_eq_false_2; [done |].
  apply (unmount_unsubscribes w).
Qed.

(** ** Runs of events *)

Lemma step_clientId (w : World) (e : Event) : clientId (step w e) = clientId w.
Proof.
  destruct e as [| answer | | file answer | | | |]; cbn; try done.
  - unfold mutation_settled.
    by destruct (status (sendMessageMutation w)), answer.
  - by destruct answer as [[?|]|?].
  - unfold realtime_event. by case_bool_decide.
Qed.

Lemma run_clientId (w : World) (events : list Event) :
  clientId (run w events) = clientId w.
Proof.
  revert w. induction events as [| e events IH]; intros w; [done |].
  cbn. fold (run (step w e) events). by rewrite IH, step_clientId.
Qed.

Lemma step_calls (w : World) (e : Event) :
  calls (step w e) = (calls w ++ option_list (call_of (clientId w) e))%list.
Proof.
  destruct e as [| answer | | file answer | | | |]; cbn;
    rewrite ?app_nil_r; try done.
  - unfold mutation_settled.
    by destruct (status (sendMessageMutation w)), answer.
  - by destruct answer as [[?|]|?].
  - unfold realtime_event. by case_bool_decide.
Qed.

(** The calls of [sendMessage] and of [uploadFile] made over a run are
    those of its submits and of its uploads, one each and in their order:
    no event makes the portal send a message or upload a file a second
    time, whatever failed, and every message is sent with the flag
    [false].  (The calls of the two query functions are not among these;
    they are counted in the queries.) *)
Theorem run_calls (w : World) (events : list Event) :
  calls (run w events) = (calls w ++ omap (call_of (clientId w)) events)%list.
Proof.
  revert w. induction events as [| e events IH]; intros w.
  - cbn. by rewrite app_nil_r.
  - cbn. fold (run (step w e) events).
    rewrite IH, step_calls, step_clientId, <- app_assoc.
    by destruct (call_of (clientId w) e).
Qed.

Lemma step_keys (w : World) (e : Event) (k : list string) :
  is_Some (queryClient (step w e) !! k) ↔ is_Some (queryClient w !! k).
Proof.
  destruct e as [| answer | | file answer | | | |]; cbn; try done.
  - unfold mutation_settled.
    destruct (status (sendMessageMutation w)), answer; cbn; try done.
    apply is_Some_invalidateQueries.
  - destruct answer as [[?|]|?]; cbn; try done.
    apply is_Some_invalidateQueries.
  - unfold realtime_event. case_bool_decide; cbn; [| done].
    apply is_Some_invalidateQueries.
  - apply is_Some_alter.
  - apply is_Some_alter.
Qed.

Lemma step_toasts (w : World) (e : Event) :
  toasts w `prefix_of` toasts (step w e) ∧ console w `prefix_of` console (step w e).
Proof.
  destruct e as [| answer | | file answer | | | |]; cbn; try done.
  - unfold mutation_settled.
    destruct (status (sendMessageMutation w)), answer; cbn;
      split; try done; by apply prefix_app_r.
  - destruct answer as [[?|]|?]; cbn; split; try done; by apply prefix_app_r.
  - unfold realtime_event. by case_bool_decide.
Qed.

(** Whatever happens to the mounted portal, it stays the portal of the
    same client, the query cache keeps exactly the keys it has, and the
    toasts shown and the console lines written so far stay as they are:
    later events only add to them. *)
Theorem run_keeps_client_keys_and_logs (w : World) (events : list Event) :
  clientId (run w events) = clientId w
  ∧ (∀ k, is_Some (queryClient (run w events) !! k) ↔ is_Some (queryClient w !! k))
  ∧ toasts w `prefix_of` toasts (run w events)
  ∧ console w `prefix_of` console (run w events).
Proof.
  split; [apply run_clientId |].
  revert w. induction events as [| e events IH]; intros w; [done |].
  cbn. fold (run (step w e) events).
  destruct (IH (step w e)) as (Hk & Ht & Hc).
  destruct (step_toasts w e) as [Ht1 Hc1].
  split; [| split].
  - intros k. by rewrite Hk, step_keys.
  - by etrans.
  - by etrans.
Qed.

Lemma step_data (w : World) (e : Event) (k : list string) :
  is_fetched e = false →
  data <$> (queryClient (step w e) !! k) = data <$> (queryClient w !! k).
Proof.
  destruct e as [| answer | | file answer | | | |]; cbn; try done; intros _.
  - unfold mutation_settled.
    destruct (status (sendMessageMutation w)), answer; cbn; try done.
    apply data_invalidateQueries.
  - destruct answer as [[?|]|?]; cbn; try done.
    apply data_invalidateQueries.
  - unfold realtime_event. case_bool_decide; cbn; [| done].
    apply data_invalidateQueries.
Qed.

(** The data of the query cache changes only when a fetch settles: over a
    run without such an event (submits, answers to them, uploads, change
    events, unmounting) every query holds the data it held before.  No
    handler of the portal writes an entry of its own into the cache. *)
Theorem cache_data_changes_only_by_fetch (w : World) (events : list Event)
    (k : list string) :
  forallb (λ e, negb (is_fetched e)) events = true →
  data <$> (queryClient (run w events) !! k) = data <$> (queryClient w !! k).
Proof.
  revert w. induction events as [| e events IH]; intros w; [done |].
  cbn. intros [He Hes]%andb_prop. fold (run (step w e) events).
  rewrite IH by done. apply step_data. by destruct (is_fetched e).
Qed.

Lemma cache_data_changes_only_by_fetch_witness :
  data <$> (queryClient
      (run loaded [Submit "hello"; ChangeEvent (mkPayload "INSERT" [] []);
                   SendSettles (Fulfilled stored_message);
                   UploadStarts report;
                   UploadSettles report (Rejected OtherThrown)])
      !! messagesKey loaded)
  = Some (Some (MessagesData [earlier_message])).
Proof.
  refine (eq_trans (cache_data_changes_only_by_fetch loaded
            [Submit "hello"; ChangeEvent (mkPayload "INSERT" [] []);
             SendSettles (Fulfilled stored_message);
             UploadStarts report;
             UploadSettles report (Rejected OtherThrown)]
            (messagesKey loaded) _) _).
  - reflexivity.
  - vm_compute. reflexivity.
Defined.

(** ** One refetch per change event *)

Lemma change_events_lookup (w : World) (q : Query) (payloads : list Payload) :
  messages_channel (clientId w) ∈ channels w →
  queryClient w !! messagesKey w = Some q →
  messages_channel (clientId w) ∈ channels (run w (ChangeEvent <$> payloads))
  ∧ queryClient (run w (ChangeEvent <$> payloads)) !! messagesKey w
    = Some (Nat.iter (length payloads) invalidate q).
Proof.
  revert w q. induction payloads as [| p payloads IH]; intros w q Hsub Hq; [done |].
  cbn. fold (run (realtime_event p w) (ChangeEvent <$> payloads)).
  assert (realtime_event p w = set_queryClient (invalidateQueries (messagesKey w)) w)
    as Hstep.
  { unfold realtime_event. by rewrite bool_decide_eq_true_2. }
  destruct (IH (realtime_event p w) (invalidate q)) as [Hsub' Hq'].
  - by rewrite Hstep.
  - rewrite Hstep. cbn. unfold messagesKey in *. cbn.
    by rewrite PortalFacts.lookup_invalidateQueries_eq, Hq.
  - rewrite Hstep in Hsub', Hq' |- *. split; [done |].
    unfold messagesKey in *. cbn in Hq'. rewrite Hq'.
    f_equal. apply Nat.iter_swap.
Qed.

Lemma iter_invalidate (n : nat) (q : Query) :
  is_Some (data q) →
  Nat.iter (S n) invalidate q =
    {| data := data q; isInvalidated := true;
       fetchStatus := Fetching; fetches := fetches q + S n |}.
Proof.
  intros Hd.
  assert (∀ q', is_Some (data q') → refetches q' = true) as Hre.
  { intros q' [d Hq']. unfold refetches.
    rewrite (bool_decide_eq_false_2 (data q' = None)) by (by rewrite Hq').
    by rewrite andb_false_r. }
  induction n as [| n IH].
  - cbn. unfold invalidate. rewrite (Hre q Hd). f_equal. lia.
  - change (Nat.iter (S (S n)) invalidate q) with (invalidate (Nat.iter (S n) invalidate q)).
    rewrite IH. unfold invalidate. rewrite Hre by done. cbn. f_equal. lia.
Qed.

(** Once the conversation has been loaded, every change event on the
    subscribed channel starts one refetch of the messages query: after a
    burst of events (at least one) the query function has been called once
    more per event, the query is marked and fetching, and the messages it
    holds, which the list goes on showing, are those it held before the
    burst. *)
Theorem change_events_refetch_each_time (w : World) (q : Query)
    (payload : Payload) (payloads : list Payload) :
  messages_channel (clientId w) ∈ channels w →
  queryClient w !! messagesKey w = Some q →
  is_Some (data q) →
  let w1 := run w (ChangeEvent <$> payload :: payloads) in
  queryClient w1 !! messagesKey w
    = Some {| data := data q; isInvalidated := true; fetchStatus := Fetching;
              fetches := fetches q + S (length payloads) |}
  ∧ messages_of (queryClient w1 !! messagesKey w) = messages_of (Some q).
Proof.
  intros Hsub Hq Hd w1.
  destruct (change_events_lookup w q (payload :: payloads) Hsub Hq) as [_ Hq1].
  subst w1. rewrite Hq1.
  change (length (payload :: payloads)) with (S (length payloads)).
  by rewrite iter_invalidate.
Qed.

Lemma change_events_refetch_each_time_witness :
  let w1 := run loaded (ChangeEvent <$> [mkPayload "INSERT" [] [];
                                         mkPayload "UPDATE" [] [];
                                         mkPayload "DELETE" [] []]) in
  queryClient w1 !! messagesKey loaded
    = Some {| data := Some (MessagesData [earlier_message]); isInvalidated := true;
              fetchStatus := Fetching; fetches := 4 |}
  ∧ messages_of (queryClient w1 !! messagesKey loaded) = [earlier_message].
Proof.
  refine (change_events_refetch_each_time loaded
            (mkQuery (Some (MessagesData [earlier_message])) false Idle 1)
            (mkPayload "INSERT" [] [])
            [mkPayload "UPDATE" [] []; mkPayload "DELETE" [] []] _ _ _).
  - vm_compute. constructor.
  - vm_compute. reflexivity.
  - by eexists.
Defined.

End PortalMore.

(** * The message input *)

Module InputFacts.
Import Input.

(** ** Trimming *)

Lemma trimStart_blank (s : list N) : blank s → trimStart s = [].
Proof. unfold blank. induction 1 as [| c s Hc _ IH]; [done |]. cbn. by rewrite Hc. Qed.

Lemma trimStart_split (s : list N) :
  ∃ a, s = (a ++ trimStart s)%list ∧ blank a.
Proof.
  unfold blank.
  induction s as [| c s (a & Hs & Ha)]; [by exists [] |]. cbn.
  destruct (isWhiteSpace c) eqn:Hc.
  - exists (c :: a). split; [cbn; by rewrite <- Hs | by constructor].
  - by exists [].
Qed.

Lemma trimStart_head (s : list N) (c : N) :
  head (trimStart s) = Some c → isWhiteSpace c = false.
Proof.
  induction s as [| d s IH]; [done |]. cbn.
  destruct (isWhiteSpace d) eqn:Hd; [done |]. cbn. congruence.
Qed.

Lemma trimStart_id (s : list N) :
  (∀ c, head s = Some c → isWhiteSpace c = false) → trimStart s = s.
Proof.
  destruct s as [| c s]; [done |]. intros H. cbn. by rewrite (H c).
Qed.

Lemma blank_rev (s : list N) : blank s → blank (rev s).
Proof.
  unfold blank. intros H. apply List.Forall_forall. intros c Hc%in_rev.
  by apply (proj1 (List.Forall_forall _ s) H).
Qed.

Lemma trimEnd_split (s : list N) :
  ∃ b, s = (trimEnd s ++ b)%list ∧ blank b.
Proof.
  destruct (trimStart_split (rev s)) as (a & Hs & Ha).
  exists (rev a). split; [| by apply blank_rev].
  unfold trimEnd. rewrite <- rev_app_distr, <- Hs. by rewrite rev_involutive.
Qed.

Lemma last_rev (s : list N) : last s = head (rev s).
Proof.
  induction s as [| c s IH] using rev_ind; [done |].
  rewrite last_snoc, rev_app_distr. done.
Qed.

Lemma trimEnd_last (s : list N) (c : N) :
  last (trimEnd s) = Some c → isWhiteSpace c = false.
Proof.
  rewrite last_rev. unfold trimEnd. rewrite rev_involutive.
  apply trimStart_head.
Qed.

Lemma trimEnd_id (s : list N) :
  (∀ c, last s = Some c → isWhiteSpace c = false) → trimEnd s = s.
Proof.
  intros H. unfold trimEnd. rewrite trimStart_id; [apply rev_involutive |].
  intros c Hc. apply H. by rewrite last_rev.
Qed.

Lemma trimEnd_head (s : list N) (c : N) :
  head (trimEnd s) = Some c → head s = Some c.
Proof.
  destruct (trimEnd_split s) as (b & Hs & _). intros Hc.
  rewrite Hs. by destruct (trimEnd s).
Qed.

(** [trim] takes white space away from both ends and nothing else: the
    text is the trimmed text between two blank runs, and the trimmed text
    neither starts nor ends with white space. *)
Lemma trim_split (s : list N) :
  ∃ a b, s = (a ++ trim s ++ b)%list ∧ blank a ∧ blank b.
Proof.
  destruct (trimStart_split s) as (a & Hs & Ha).
  destruct (trimEnd_split (trimStart s)) as (b & Ht & Hb).
  exists a, b. split; [| done]. unfold trim. by rewrite <- Ht.
Qed.

Lemma trim_head (s : list N) (c : N) :
  head (trim s) = Some c → isWhiteSpace c = false.
Proof. intros Hc%trimEnd_head. by apply (trimStart_head s). Qed.

Lemma trim_last (s : list N) (c : N) :
  last (trim s) = Some c → isWhiteSpace c = false.
Proof. apply trimEnd_last. Qed.

Lemma trim_blank (s : list N) : trim s = [] ↔ blank s.
Proof.
  split.
  - intros Ht. destruct (trim_split s) as (a & b & Hs & Ha & Hb).
    rewrite Hs, Ht. cbn. unfold blank in *. by apply Forall_app.
  - intros Hs. unfold trim. by rewrite trimStart_blank.
Qed.

Lemma truthy_trim (s : list N) : truthy (trim s) = false ↔ blank s.
Proof.
  rewrite <- trim_blank. by destruct (trim s).
Qed.

Lemma not_blank_truthy (s : list N) : truthy (trim s) = true ↔ ¬ blank s.
Proof.
  rewrite <- truthy_trim. by destruct (truthy (trim s)).
Qed.

(** Trimming a trimmed text changes nothing. *)
Lemma trim_idempotent (s : list N) : trim (trim s) = trim s.
Proof.
  unfold trim at 1. rewrite (trimStart_id (trim s)) by apply trim_head.
  apply trimEnd_id, trim_last.
Qed.

(** ** Sending *)

(** A text of white space only (the empty text included) is not sent:
    [handleSend] calls nothing and keeps the text, the send button is
    disabled, and Enter does nothing but lose its default action. *)
Theorem blank_message_not_sent (props : MessageInputProps) (message : list N) :
  blank message →
  handleSend message = {| Input.message := message; sent := None;
                          focusScheduled := false; defaultPrevented := false |}
  ∧ sendButtonDisabled props message = true
  ∧ handleKeyDown "Enter" false message =
      {| Input.message := message; sent := None;
         focusScheduled := false; defaultPrevented := true |}.
Proof.
  intros Hb%truthy_trim.
  unfold sendButtonDisabled, handleKeyDown, handleSend. rewrite Hb. cbn.
  by rewrite orb_true_r.
Qed.

Lemma blank_message_not_sent_witness :
  handleSend [32; 9; 160; 10; 0x2003]%N
    = {| Input.message := [32; 9; 160; 10; 0x2003]%N; sent := None;
         focusScheduled := false; defaultPrevented := false |}
  ∧ sendButtonDisabled (mkInputProps false None None) [32; 9; 160; 10; 0x2003]%N = true
  ∧ handleKeyDown "Enter" false [32; 9; 160; 10; 0x2003]%N =
      {| Input.message := [32; 9; 160; 10; 0x2003]%N; sent := None;
         focusScheduled := false; defaultPrevented := true |}.
Proof.
  apply (blank_message_not_sent (mkInputProps false None None)
           [32; 9; 160; 10; 0x2003]%N).
  repeat constructor.
Defined.

(** What [handleSend] passes to [onSendMessage] is the text without the
    white space around it: it is not empty, neither starts nor ends with
    white space, is left alone by a second trimming, and the text typed is
    this content between two blank runs.  The input is then emptied and
    the focus scheduled. *)
Theorem sent_message_is_trimmed (message content : list N) :
  sent (handleSend message) = Some content →
  content = trim message
  ∧ content ≠ []
  ∧ (∀ c, head content = Some c ∨ last content = Some c → isWhiteSpace c = false)
  ∧ trim content = content
  ∧ (∃ a b, message = (a ++ content ++ b)%list ∧ blank a ∧ blank b)
  ∧ Input.message (handleSend message) = []
  ∧ focusScheduled (handleSend message) = true.
Proof.
  unfold handleSend. destruct (truthy (trim message)) eqn:Ht; [| done].
  cbn. intros [= <-]. repeat split.
  - intros E. by rewrite E in Ht.
  - intros c [Hc | Hc]; [by apply (trim_head message) | by apply (trim_last message)].
  - apply trim_idempotent.
  - apply trim_split.
Qed.

Lemma sent_message_is_trimmed_witness :
  units "hello  you" = trim (units "  hello  you ")
  ∧ units "hello  you" ≠ []
  ∧ (∀ c, head (units "hello  you") = Some c ∨ last (units "hello  you") = Some c
          → isWhiteSpace c = false)
  ∧ trim (units "hello  you") = units "hello  you"
  ∧ (∃ a b, units "  hello  you " = (a ++ units "hello  you" ++ b)%list ∧ blank a ∧ blank b)
  ∧ Input.message (handleSend (units "  hello  you ")) = []
  ∧ focusScheduled (handleSend (units "  hello  you ")) = true.
Proof.
  apply (sent_message_is_trimmed (units "  hello  you ") (units "hello  you")).
  reflexivity.
Defined.

(** The send button is enabled exactly when the input is not disabled and
    the text is not blank, and [handleSend] sends exactly when the text is
    not blank: a click on the enabled button always sends. *)
Theorem send_button_enabled_iff_sendable (props : MessageInputProps)
    (message : list N) :
  (sendButtonDisabled props message = false
     ↔ disabled_or_default props = false ∧ ¬ blank message)
  ∧ (is_Some (sent (handleSend message)) ↔ ¬ blank message).
Proof.
  rewrite <- not_blank_truthy.
  unfold sendButtonDisabled, handleSend.
  destruct (disabled_or_default props), (truthy (trim message)); cbn;
    rewrite ?is_Some_alt; intuition (try discriminate; try congruence; eauto).
Qed.

(** Only Enter without Shift reaches [handleSend]: any other key, and
    Enter with Shift (a new line), leaves the text alone, sends nothing
    and keeps its default action. *)
Theorem only_plain_enter_sends (key : string) (shiftKey : bool) (message : list N) :
  (defaultPrevented (handleKeyDown key shiftKey message) = true
     ↔ key = "Enter" ∧ shiftKey = false)
  ∧ (is_Some (sent (handleKeyDown key shiftKey message))
     ↔ key = "Enter" ∧ shiftKey = false ∧ ¬ blank message)
  ∧ (Input.message (handleKeyDown key shiftKey message) = message
     ∨ key = "Enter" ∧ shiftKey = false ∧ ¬ blank message).
Proof.
  rewrite <- not_blank_truthy.
  unfold handleKeyDown, handleSend.
  destruct (String.eqb_spec key "Enter") as [-> | Hk], shiftKey,
    (truthy (trim message)); cbn; rewrite ?is_Some_alt; intuition (try discriminate; try congruence; eauto).
Qed.

(** While the send-message mutation of the portal is pending, the input
    the portal renders has its textarea and, whatever the text, its send
    button disabled; it has no attach button. *)
Theorem pending_portal_input_disabled (w : Portal.World) (message : list N) :
  Portal.status (Portal.sendMessageMutation w) = Portal.MPending →
  textareaDisabled (portal_input w) = true
  ∧ sendButtonDisabled (portal_input w) message = true
  ∧ attachButton (portal_input w) = None.
Proof.
  intros Hp. unfold sendButtonDisabled, textareaDisabled,
    disabled_or_default, portal_input, Portal.isPending. cbn. rewrite Hp. done.
Qed.

Lemma pending_portal_input_disabled_witness :
  textareaDisabled (portal_input Portal.sending) = true
  ∧ sendButtonDisabled (portal_input Portal.sending) (units "again") = true
  ∧ attachButton (portal_input Portal.sending) = None.
Proof.
  apply (pending_portal_input_disabled Portal.sending (units "again")).
  reflexivity.
Defined.

End InputFacts.

(** * The client list *)

Module ClientsFacts.
Import Supabase Clients.

(** [includes] finds exactly the runs of the text. *)
Lemma includes_spec (s t : list N) :
  includes s t = true ↔ ∃ a b, s = (a ++ t ++ b)%list.
Proof.
  induction s as [| c s IH]; cbn.
  - rewrite orb_false_r, bool_decide_eq_true. split.
    + intros [b ->%eq_sym%app_eq_nil%proj1]. by exists [], [].
    + intros (a & b & Hs). symmetry in Hs.
      apply app_eq_nil in Hs as [-> Hs]. apply app_eq_nil in Hs as [-> _].
      by exists [].
  - rewrite orb_true_iff, bool_decide_eq_true, IH. split.
    + intros [[b ->] | (a & b & ->)]; [by exists [], b | by exists (c :: a), b].
    + intros ([| d a] & b & Hs); cbn in Hs.
      * left. by exists b.
      * right. injection Hs as -> ->. by exists a, b.
Qed.

Lemma includes_nil (s : list N) : includes s [] = true.
Proof. apply includes_spec. by exists [], s. Qed.

Section ClientList.

Context {Raw Num : Type}.
Variable Number : Raw → Num.
Variable toLowerCase : list N → list N.

(** ** Unread counts *)

Lemma messageCountMap_snoc (rows : list (@UnreadRow Raw)) (item : UnreadRow) :
  messageCountMap Number (Some (rows ++ [item])%list) =
    <[client_id item := Number (unread_count item)]> (messageCountMap Number (Some rows)).
Proof. unfold messageCountMap. by rewrite foldl_app. Qed.

(** The count kept for a client is that of the last row the unread-count
    call returned for it, and there is none when the call returned no row
    for it (or no rows at all). *)
Theorem unread_count_is_last_row (messageData : list (@UnreadRow Raw)) (clientId : string) :
  messageCountMap Number (Some messageData) !! clientId =
    (λ item, Number (unread_count item)) <$>
      last (List.filter (λ item, String.eqb (client_id item) clientId) messageData).
Proof.
  induction messageData as [| item rows IH] using rev_ind; [done |].
  rewrite messageCountMap_snoc, List.filter_app. cbn.
  destruct (String.eqb_spec (client_id item) clientId) as [-> | Hne].
  - by rewrite lookup_insert_eq, last_snoc.
  - by rewrite lookup_insert_ne, app_nil_r.
Qed.

(** ** Fetching *)

Lemma fetchClients_fetched profiles companies clientRows rows
    (unread : Response (list (@UnreadRow Raw))) (w : @World Num) :
  fetched profiles companies clientRows rows →
  fetchClients Number profiles companies clientRows unread w =
    {| searchQuery := searchQuery w;
       clients := map (formatClient (messageCountMap Number (data unread))) rows;
       loading := false;
       toasts := toasts w;
       console := (console w
                   ++ match error unread with
                      | Some _ => ["Error fetching unread counts:"]
                      | None => []
                      end
                   ++ ["messageData"])%list;
       queries := (queries w ++ [SelectClientProfiles;
                     SelectCompanies (default [] (companyIds <$> data profiles));
                     SelectClients; RpcUnreadCounts])%list |}.
Proof.
  intros (Hp & (p & ps & Hd) & Hc & Hr & Hrows).
  unfold fetchClients. rewrite Hp, Hd, Hc, Hr, Hrows.
  destruct (error unread);
    unfold fetchClients_finally, setClients, console_log, query, setLoading; cbn;
    f_equal; by rewrite <- ?app_assoc.
Qed.

(** When no profile has the client role with onboarding completed (the
    query yields no rows, or no data), the list is emptied and nothing
    else is asked of the service: no toast, no console line, and the
    loading state ends. *)
Theorem no_client_profile_lists_nobody profiles companies clientRows
    (unread : Response (list (@UnreadRow Raw))) (w : @World Num) :
  error profiles = None →
  data profiles = None ∨ data profiles = Some [] →
  fetchClients Number profiles companies clientRows unread w =
    {| searchQuery := searchQuery w; clients := []; loading := false;
       toasts := toasts w; console := console w;
       queries := (queries w ++ [SelectClientProfiles])%list |}.
Proof.
  intros Hp Hd. unfold fetchClients. rewrite Hp.
  by destruct Hd as [-> | ->].
Qed.

(** When the query of the profiles, of the companies or of the clients
    fails, the clients listed so far stay, one destructive "Error fetching clients" toast is shown, the
    loading state ends, and the unread counts are not asked for. *)
Theorem failed_query_keeps_clients profiles companies clientRows
    (unread : Response (list (@UnreadRow Raw))) (w : @World Num) :
  is_Some (error profiles)
  ∨ ((∃ p ps, data profiles = Some (p :: ps))
     ∧ (is_Some (error companies) ∨ is_Some (error clientRows))) →
  let w1 := fetchClients Number profiles companies clientRows unread w in
  clients w1 = clients w
  ∧ searchQuery w1 = searchQuery w
  ∧ loading w1 = false
  ∧ toasts w1 = (toasts w ++ [ {| Portal.title := "Error fetching clients";
                                  Portal.description := "Please try again later.";
                                  Portal.variant := Portal.VDestructive |} ])%list
  ∧ console w1 = (console w ++ ["Error fetching clients:"])%list
  ∧ (∃ qs, queries w1 = (queries w ++ qs)%list ∧ RpcUnreadCounts ∉ qs).
Proof.
  intros H w1. subst w1. unfold fetchClients.
  destruct (error profiles) as [e |] eqn:Hp.
  - repeat split. exists [SelectClientProfiles]. split; [done |].
    by intros [=]%list_elem_of_singleton.
  - destruct H as [[? [=]] | [(p & ps & ->) H]].
    destruct (error companies) as [e |] eqn:Hc.
    + repeat split. eexists [_; _]. split; [cbn; by rewrite <- app_assoc |].
      intros Hin. repeat (apply elem_of_cons in Hin as [[=] | Hin]).
      by apply elem_of_nil in Hin.
    + destruct H as [[? [=]] | H].
      destruct (error clientRows) as [e |] eqn:Hr; [| by destruct H].
      repeat split. eexists [_; _; _]. split; [cbn; by rewrite <- !app_assoc |].
      intros Hin. repeat (apply elem_of_cons in Hin as [[=] | Hin]).
      by apply elem_of_nil in Hin.
Qed.

(** When the three queries succeed with at least one client profile, the
    list has one card per row of the clients table, in the order of the
    rows, with the columns of its row; no card has pending files; the
    unread count of a card is that of the last row the unread-count call
    returned for the client, and there is none when the call returned no
    row for it or failed.  No toast is shown and the loading state
    ends. *)
Theorem clients_listed_as_fetched profiles companies clientRows rows
    (unread : Response (list (@UnreadRow Raw))) (w : @World Num) :
  fetched profiles companies clientRows rows →
  let w1 := fetchClients Number profiles companies clientRows unread w in
  Forall2 (λ (c : Client) (r : ClientRow),
      id c = row_id r ∧ name c = row_name r ∧ company c = row_company r
      ∧ email c = row_email r ∧ phone c = row_phone r
      ∧ lastActivity c = NewDate (last_activity r)
      ∧ pendingFiles c = None
      ∧ unreadMessages c =
          (λ item, Number (unread_count item)) <$>
            last (List.filter (λ item, String.eqb (client_id item) (row_id r))
                    (default [] (data unread))))
    (clients w1) rows
  ∧ loading w1 = false
  ∧ toasts w1 = toasts w.
Proof.
  intros Hf w1. subst w1. rewrite (fetchClients_fetched _ _ _ rows) by done. cbn.
  split; [| done].
  apply Forall2_fmap_l, Forall_Forall2_diag, List.Forall_forall.
  intros r _. repeat split. cbn.
  destruct (data unread) as [messageData |]; [| done].
  apply unread_count_is_last_row.
Qed.

(** The list does not depend on which profiles were found, nor on their
    companies: as soon as there is one client profile, every row of the
    clients table is listed. *)
Theorem client_list_ignores_profiles profiles profiles' companies companies'
    clientRows rows (unread : Response (list (@UnreadRow Raw))) (w : @World Num) :
  fetched profiles companies clientRows rows →
  fetched profiles' companies' clientRows rows →
  clients (fetchClients Number profiles companies clientRows unread w)
  = clients (fetchClients Number profiles' companies' clientRows unread w)
  ∧ map id (clients (fetchClients Number profiles companies clientRows unread w))
    = map row_id rows.
Proof.
  intros H1 H2.
  rewrite (fetchClients_fetched _ _ _ rows) by done.
  rewrite (fetchClients_fetched _ _ _ rows) by done. cbn.
  split; [done |]. rewrite map_map. done.
Qed.

(** ** Searching *)

(** With an empty search every client is listed; the placeholder for "no
    clients yet" is then shown exactly when there is no client. *)
Theorem empty_search_lists_all (w : @World Num) :
  toLowerCase [] = [] →
  searchQuery w = [] →
  filteredClients toLowerCase w = clients w
  ∧ render toLowerCase w =
      if loading w then Skeleton 6
      else match clients w with
           | [] => NoClientsYet
           | _ :: _ => Cards (clients w)
           end.
Proof.
  intros Hl Hq.
  assert (filteredClients toLowerCase w = clients w) as Hf.
  { unfold filteredClients. rewrite Hq.
    induction (clients w) as [| c cs IH]; [done |]. cbn.
    unfold matches at 1. by rewrite Hl, includes_nil, IH. }
  split; [done |]. unfold render. rewrite Hf, Hq.
  by destruct (loading w), (clients w).
Qed.

(** A search lists, in their order, exactly the clients whose name,
    company or e-mail contains the search text, lower case against lower
    case. *)
Theorem search_lists_matching_clients (w : @World Num) (c : @Client Num) :
  (In c (filteredClients toLowerCase w) ↔
     In c (clients w)
     ∧ ∃ field a b, (field = name c ∨ field = company c ∨ field = email c)
                    ∧ toLowerCase field = (a ++ toLowerCase (searchQuery w) ++ b)%list)
  ∧ filteredClients toLowerCase w `sublist_of` clients w.
Proof.
  split.
  - unfold filteredClients. rewrite filter_In. unfold matches.
    rewrite !orb_true_iff, !includes_spec. split.
    + intros [Hin [[(a & b & H) | (a & b & H)] | (a & b & H)]]; split; try done.
      * exists (name c), a, b. eauto.
      * exists (company c), a, b. eauto.
      * exists (email c), a, b. eauto.
    + intros [Hin (field & a & b & [-> | [-> | ->]] & H)]; split; eauto.
  - unfold filteredClients. induction (clients w) as [| d cs IH]; [done |]. cbn.
    destruct (matches toLowerCase (searchQuery w) d);
      [by apply sublist_skip | by apply sublist_cons].
Qed.

End ClientList.

Lemma no_client_profile_lists_nobody_witness :
  fetchClients (λ n : nat, n) (mkResponse (Some []) None)
    (mkResponse None None) (mkResponse (Some [ann; bob]) None)
    (mkResponse (Some [mkUnreadRow "c1" 3]) None) init
  = {| searchQuery := []; clients := []; loading := false;
       toasts := []; console := []; queries := [SelectClientProfiles] |}.
Proof.
  apply (no_client_profile_lists_nobody (λ n : nat, n) (mkResponse (Some []) None)
           (mkResponse None None) (mkResponse (Some [ann; bob]) None)
           (mkResponse (Some [mkUnreadRow "c1" 3]) None) init).
  - reflexivity.
  - right. reflexivity.
Defined.

Lemma failed_query_keeps_clients_witness :
  let w1 := fetchClients (λ n : nat, n) (mkResponse (Some [a_profile]) None)
              (mkResponse None (Some db_error)) (mkResponse (Some [ann; bob]) None)
              (mkResponse (Some [mkUnreadRow "c1" 3]) None) init in
  clients w1 = []
  ∧ searchQuery w1 = []
  ∧ loading w1 = false
  ∧ toasts w1 = [ {| Portal.title := "Error fetching clients";
                     Portal.description := "Please try again later.";
                     Portal.variant := Portal.VDestructive |} ]
  ∧ console w1 = ["Error fetching clients:"]
  ∧ (∃ qs, queries w1 = qs ∧ RpcUnreadCounts ∉ qs).
Proof.
  apply (failed_query_keeps_clients (λ n : nat, n) (mkResponse (Some [a_profile]) None)
           (mkResponse None (Some db_error)) (mkResponse (Some [ann; bob]) None)
           (mkResponse (Some [mkUnreadRow "c1" 3]) None) init).
  right. split; [by exists a_profile, [] |]. left. by exists db_error.
Defined.

Lemma sample_fetched :
  fetched (mkResponse (Some [a_profile]) None) (mkResponse (Some []) None)
    (mkResponse (Some [ann; bob]) None) [ann; bob].
Proof. repeat split. by exists a_profile, []. Defined.

Lemma clients_listed_as_fetched_witness :
  let w1 := fetchClients (λ n : nat, n) (mkResponse (Some [a_profile]) None)
              (mkResponse (Some []) None) (mkResponse (Some [ann; bob]) None)
              (mkResponse (Some [mkUnreadRow "c1" 3; mkUnreadRow "c9" 1;
                                 mkUnreadRow "c1" 5]) None) init in
  Forall2 (λ (c : Client) (r : ClientRow),
      id c = row_id r ∧ name c = row_name r ∧ company c = row_company r
      ∧ email c = row_email r ∧ phone c = row_phone r
      ∧ lastActivity c = NewDate (last_activity r)
      ∧ pendingFiles c = None
      ∧ unreadMessages c =
          (λ item, unread_count item) <$>
            last (List.filter (λ item, String.eqb (client_id item) (row_id r))
                    [mkUnreadRow "c1" 3; mkUnreadRow "c9" 1; mkUnreadRow "c1" 5]))
    (clients w1) [ann; bob]
  ∧ loading w1 = false
  ∧ toasts w1 = [].
Proof.
  exact (clients_listed_as_fetched (λ n : nat, n) (mkResponse (Some [a_profile]) None)
           (mkResponse (Some []) None) (mkResponse (Some [ann; bob]) None) [ann; bob]
           (mkResponse (Some [mkUnreadRow "c1" 3; mkUnreadRow "c9" 1;
                              mkUnreadRow "c1" 5]) None) init sample_fetched).
Defined.

Lemma client_list_ignores_profiles_witness :
  clients (fetchClients (λ n : nat, n) (mkResponse (Some [a_profile]) None)
             (mkResponse (Some []) None) (mkResponse (Some [ann; bob]) None)
             (mkResponse None (Some db_error)) init)
  = clients (fetchClients (λ n : nat, n)
               (mkResponse (Some [mkProfileRow "p7" None None; a_profile]) None)
               (mkResponse (Some [mkCompanyRow "co1" "Acme"]) None)
               (mkResponse (Some [ann; bob]) None)
               (mkResponse None (Some db_error)) init)
  ∧ map id (clients (fetchClients (λ n : nat, n) (mkResponse (Some [a_profile]) None)
             (mkResponse (Some []) None) (mkResponse (Some [ann; bob]) None)
             (mkResponse None (Some db_error)) init)) = ["c1"; "c2"].
Proof.
  apply (client_list_ignores_profiles (λ n : nat, n) (mkResponse (Some [a_profile]) None)
           (mkResponse (Some [mkProfileRow "p7" None None; a_profile]) None)
           (mkResponse (Some []) None) (mkResponse (Some [mkCompanyRow "co1" "Acme"]) None)
           (mkResponse (Some [ann; bob]) None) [ann; bob]
           (mkResponse None (Some db_error)) init).
  - exact sample_fetched.
  - repeat split. by exists (mkProfileRow "p7" None None), [a_profile].
Defined.

Lemma empty_search_lists_all_witness :
  let w := fetchClients (λ n : nat, n) (mkResponse (Some [a_profile]) None)
             (mkResponse (Some []) None) (mkResponse (Some [ann; bob]) None)
             (mkResponse None None) init in
  filteredClients lower_ascii w = clients w
  ∧ render lower_ascii w = Cards (clients w).
Proof.
  apply (empty_search_lists_all lower_ascii
           (fetchClients (λ n : nat, n) (mkResponse (Some [a_profile]) None)
              (mkResponse (Some []) None) (mkResponse (Some [ann; bob]) None)
              (mkResponse None None) init));
    reflexivity.
Defined.

End ClientsFacts.

(** * The onboarding page *)

Module SetupFacts.
Import Supabase Setup.

Lemma or_else_nonempty (a : option string) (b : string) :
  b ≠ "" → or_else a b ≠ "".
Proof.
  intros Hb. unfold or_else. destruct a as [s |]; [| done].
  by destruct (String.eqb_spec s "").
Qed.

(** ** Submitting *)

(** When the profile already has a company, submitting updates that
    company and never inserts one; the profile is then given this company,
    marked as onboarded and given the role "Client", and the user is sent
    home with a toast.  Exactly these three requests are made. *)
Theorem submit_updates_existing_company (user : Guard.User) (values : CompanyFormValues)
    (companyId : string) (companyInsert : Single string) (w : World) :
  companyId ≠ "" →
  let w1 := onSubmit (Some user) values (Row (Some companyId)) None companyInsert None w in
  requests w1 = (requests w ++
                 [SelectProfileCompany (Guard.id user);
                  UpdateCompany companyId (payload_of values);
                  UpdateProfile (Guard.id user) companyId true "Client"])%list
  ∧ navigations w1 = (navigations w ++ ["/"])%list
  ∧ onboardingCompleted w1 = true
  ∧ loading w1 = false
  ∧ toasts w1 = (toasts w ++ [ {| Portal.title := "Onboarding complete!";
                                  Portal.description := "Your account has been fully set up.";
                                  Portal.variant := Portal.VDefault |} ])%list.
Proof.
  intros Hc w1. subst w1. unfold onSubmit, profile_company, truthy.
  destruct (String.eqb_spec companyId "") as [-> | _]; [done |]. cbn.
  by rewrite <- !app_assoc.
Qed.

Lemma submit_updates_existing_company_witness :
  let user := Guard.mkUser "u1" "u1@example.com" in
  let values := mkValues "Acme" (Some "Retail") (Some "") None None in
  let w1 := onSubmit (Some user) values (Row (Some "co1")) None
              (Failure (mkError "23505" "duplicate key")) None (init (Some user)) in
  requests w1 = [SelectProfileCompany "u1";
                 UpdateCompany "co1" (payload_of values);
                 UpdateProfile "u1" "co1" true "Client"]
  ∧ navigations w1 = ["/"]
  ∧ onboardingCompleted w1 = true
  ∧ loading w1 = false
  ∧ toasts w1 = [ {| Portal.title := "Onboarding complete!";
                     Portal.description := "Your account has been fully set up.";
                     Portal.variant := Portal.VDefault |} ].
Proof.
  apply (submit_updates_existing_company (Guard.mkUser "u1" "u1@example.com")
           (mkValues "Acme" (Some "Retail") (Some "") None None) "co1"
           (Failure (mkError "23505" "duplicate key"))
           (init (Some (Guard.mkUser "u1" "u1@example.com")))).
  discriminate.
Defined.

(** The error of a missing profile row ("PGRST116") is not an error for
    the submit: it goes on exactly as for a profile without a company. *)
Theorem missing_profile_row_tolerated (user : option Guard.User)
    (values : CompanyFormValues) (e : PostgrestError)
    (companyUpdate : option PostgrestError) (companyInsert : Single string)
    (profileUpdate : option PostgrestError) (w : World) :
  code e = "PGRST116" →
  onSubmit user values (Failure e) companyUpdate companyInsert profileUpdate w
  = onSubmit user values (Row None) companyUpdate companyInsert profileUpdate w.
Proof.
  intros Hc. unfold onSubmit, profile_company. by rewrite Hc.
Qed.

Lemma missing_profile_row_tolerated_witness :
  let user := Some (Guard.mkUser "u1" "u1@example.com") in
  let values := mkValues "Acme" None None None None in
  onSubmit user values (Failure (mkError "PGRST116" "no rows")) None (Row "co9") None
    (init user)
  = onSubmit user values (Row None) None (Row "co9") None (init user).
Proof.
  apply (missing_profile_row_tolerated (Some (Guard.mkUser "u1" "u1@example.com"))
           (mkValues "Acme" None None None None) (mkError "PGRST116" "no rows")
           None (Row "co9") None (init (Some (Guard.mkUser "u1" "u1@example.com")))).
  reflexivity.
Defined.

(** When the profile has no company (none, an empty id, or no row at
    all), submitting inserts one and gives the profile the id that the
    insertion returned; no company is updated. *)
Theorem submit_creates_company_when_none (user : Guard.User) (values : CompanyFormValues)
    (profile : Single (option string)) (companyUpdate : option PostgrestError)
    (newCompanyId : string) (w : World) :
  profile_company profile = inr None ∨ profile_company profile = inr (Some "") →
  let w1 := onSubmit (Some user) values profile companyUpdate (Row newCompanyId) None w in
  requests w1 = (requests w ++
                 [SelectProfileCompany (Guard.id user);
                  InsertCompany (payload_of values);
                  UpdateProfile (Guard.id user) newCompanyId true "Client"])%list
  ∧ navigations w1 = (navigations w ++ ["/"])%list
  ∧ onboardingCompleted w1 = true
  ∧ loading w1 = false.
Proof.
  intros Hp w1. subst w1. unfold onSubmit.
  destruct Hp as [-> | ->]; cbn; by rewrite <- !app_assoc.
Qed.

Lemma submit_creates_company_when_none_witness :
  let user := Guard.mkUser "u1" "u1@example.com" in
  let values := mkValues "Acme" None None None None in
  let w1 := onSubmit (Some user) values (Failure (mkError "PGRST116" "no rows"))
              (Some (mkError "42501" "denied")) (Row "co9") None (init (Some user)) in
  requests w1 = [SelectProfileCompany "u1";
                 InsertCompany (payload_of values);
                 UpdateProfile "u1" "co9" true "Client"]
  ∧ navigations w1 = ["/"]
  ∧ onboardingCompleted w1 = true
  ∧ loading w1 = false.
Proof.
  apply (submit_creates_company_when_none (Guard.mkUser "u1" "u1@example.com")
           (mkValues "Acme" None None None None)
           (Failure (mkError "PGRST116" "no rows"))
           (Some (mkError "42501" "denied")) "co9"
           (init (Some (Guard.mkUser "u1" "u1@example.com")))).
  left. reflexivity.
Defined.

(** A submit by a signed-in user ends in one of two ways, whatever the
    service answers: the user is sent home with the success toast and the
    page marked completed, or one destructive "Error during onboarding"
    toast with a non-empty description is shown and nothing else changes.
    Either way the form keeps its values and the loading state ends. *)
Theorem submit_completes_or_reports (user : Guard.User) (values : CompanyFormValues)
    (profile : Single (option string)) (companyUpdate : option PostgrestError)
    (companyInsert : Single string) (profileUpdate : option PostgrestError) (w : World) :
  let w1 := onSubmit (Some user) values profile companyUpdate companyInsert
              profileUpdate w in
  loading w1 = false
  ∧ form w1 = form w
  ∧ console w1 = console w
  ∧ ((navigations w1 = (navigations w ++ ["/"])%list
      ∧ onboardingCompleted w1 = true
      ∧ toasts w1 = (toasts w ++ [ {| Portal.title := "Onboarding complete!";
                                      Portal.description := "Your account has been fully set up.";
                                      Portal.variant := Portal.VDefault |} ])%list)
     ∨ (navigations w1 = navigations w
        ∧ onboardingCompleted w1 = onboardingCompleted w
        ∧ ∃ t, toasts w1 = (toasts w ++ [t])%list
               ∧ Portal.title t = "Error during onboarding"
               ∧ Portal.variant t = Portal.VDestructive
               ∧ Portal.description t ≠ "")).
Proof.
  assert (∀ e, or_else (Some (message e))
                 "There was a problem completing your onboarding." ≠ "") as Hd.
  { intros e. by apply or_else_nonempty. }
  cbn. unfold onSubmit, onSubmit_profile.
  destruct (profile_company profile) as [e | company_id]; cbn.
  { repeat split. right. repeat split. eexists. repeat split. apply Hd. }
  destruct (truthy company_id).
  - destruct companyUpdate as [e |]; cbn.
    { repeat split. right. repeat split. eexists. repeat split. apply Hd. }
    destruct profileUpdate as [e |]; cbn.
    { repeat split. right. repeat split. eexists. repeat split. apply Hd. }
    repeat split. by left.
  - destruct companyInsert as [newId | e]; cbn.
    2: { repeat split. right. repeat split. eexists. repeat split. apply Hd. }
    destruct profileUpdate as [e |]; cbn.
    { repeat split. right. repeat split. eexists. repeat split. apply Hd. }
    repeat split. by left.
Qed.

(** When the company cannot be written (the update of the existing one or
    the insertion of a new one fails), the profile is not touched: the
    failing request is the last one made, and its message, or a default
    text when it has none, is shown. *)
Theorem failed_company_step_leaves_profile (user : Guard.User)
    (values : CompanyFormValues) (profile : Single (option string))
    (company_id : option string) (e : PostgrestError)
    (companyUpdate : option PostgrestError) (companyInsert : Single string)
    (profileUpdate : option PostgrestError) (w : World) :
  profile_company profile = inr company_id →
  (truthy company_id = true ∧ companyUpdate = Some e)
  ∨ (truthy company_id = false ∧ companyInsert = Failure e) →
  let w1 := onSubmit (Some user) values profile companyUpdate companyInsert
              profileUpdate w in
  (∃ r, requests w1 = (requests w ++ [SelectProfileCompany (Guard.id user); r])%list
        ∧ (r = UpdateCompany (default "" company_id) (payload_of values)
           ∨ r = InsertCompany (payload_of values)))
  ∧ toasts w1 = (toasts w ++ [ {| Portal.title := "Error during onboarding";
                                  Portal.description :=
                                    if String.eqb (message e) ""
                                    then "There was a problem completing your onboarding."
                                    else message e;
                                  Portal.variant := Portal.VDestructive |} ])%list
  ∧ onboardingCompleted w1 = onboardingCompleted w
  ∧ navigations w1 = navigations w.
Proof.
  intros Hp H w1. subst w1. unfold onSubmit. rewrite Hp.
  destruct H as [[-> ->] | [-> ->]]; cbn; (split; [| done]);
    eexists; (split; [by rewrite <- app_assoc |]); eauto.
Qed.

Lemma failed_company_step_leaves_profile_witness :
  let user := Guard.mkUser "u1" "u1@example.com" in
  let values := mkValues "Acme" None None None None in
  let w1 := onSubmit (Some user) values (Row None) None
              (Failure (mkError "23505" "")) None (init (Some user)) in
  (∃ r, requests w1 = [SelectProfileCompany "u1"; r]
        ∧ (r = UpdateCompany "" (payload_of values)
           ∨ r = InsertCompany (payload_of values)))
  ∧ toasts w1 = [ {| Portal.title := "Error during onboarding";
                     Portal.description := "There was a problem completing your onboarding.";
                     Portal.variant := Portal.VDestructive |} ]
  ∧ onboardingCompleted w1 = false
  ∧ navigations w1 = [].
Proof.
  apply (failed_company_step_leaves_profile (Guard.mkUser "u1" "u1@example.com")
           (mkValues "Acme" None None None None) (Row None) None
           (mkError "23505" "") None (Failure (mkError "23505" "")) None
           (init (Some (Guard.mkUser "u1" "u1@example.com")))).
  - reflexivity.
  - right. split; reflexivity.
Defined.

(** ** The check on mount *)

(** When the profile is not onboarded yet but has a company, the check
    fetches that company and fills the form with it: no field is left
    null, a column without a value becomes the empty text, and the
    contact e-mail falls back to that of the user.  Nobody is sent
    anywhere. *)
Theorem check_prefills_form (user : Guard.User) (data : ProfileStatus)
    (companyData : CompanyRow) (w : World) :
  default false (onboarding_completed data) = false →
  truthy (status_company_id data) = true →
  let w1 := mount_effect false (Some user) (Row data) (Row companyData) w in
  form w1 = {| name := company_name companyData;
               v_industry := Some (default "" (industry companyData));
               contactEmail := Some (if truthy (contact_email companyData)
                                     then default "" (contact_email companyData)
                                     else Guard.email user);
               contactPhone := Some (default "" (contact_phone companyData));
               v_address := Some (default "" (address companyData)) |}
  ∧ requests w1 = (requests w ++ [SelectProfileStatus (Guard.id user);
                                  SelectCompany (default "" (status_company_id data))])%list
  ∧ navigations w1 = navigations w
  ∧ onboardingCompleted w1 = onboardingCompleted w
  ∧ toasts w1 = toasts w.
Proof.
  intros Hc Ht w1. subst w1. unfold mount_effect, checkOnboardingStatus.
  rewrite Hc, Ht. cbn. split; [| by rewrite <- app_assoc].
  assert (∀ a, or_else a "" = default "" a) as Hor.
  { intros [s |]; cbn; [| done]. by destruct (String.eqb_spec s "") as [-> |]. }
  rewrite !Hor. do 2 f_equal.
  destruct (contact_email companyData) as [s |]; cbn.
  - destruct (String.eqb_spec s ""); cbn; [| done].
    by destruct (String.eqb_spec (Guard.email user) "") as [-> |].
  - by destruct (String.eqb_spec (Guard.email user) "") as [-> |].
Qed.

Lemma check_prefills_form_witness :
  let user := Guard.mkUser "u1" "u1@example.com" in
  let w1 := mount_effect false (Some user)
              (Row (mkProfileStatus None (Some "co1")))
              (Row (mkCompanyRow "Acme" None (Some "") (Some "555-0100") None))
              (init (Some user)) in
  form w1 = {| name := "Acme";
               v_industry := Some "";
               contactEmail := Some "u1@example.com";
               contactPhone := Some "555-0100";
               v_address := Some "" |}
  ∧ requests w1 = [SelectProfileStatus "u1"; SelectCompany "co1"]
  ∧ navigations w1 = []
  ∧ onboardingCompleted w1 = false
  ∧ toasts w1 = [].
Proof.
  apply (check_prefills_form (Guard.mkUser "u1" "u1@example.com")
           (mkProfileStatus None (Some "co1"))
           (mkCompanyRow "Acme" None (Some "") (Some "555-0100") None)
           (init (Some (Guard.mkUser "u1" "u1@example.com"))));
    reflexivity.
Defined.

(** A failure of the check on mount (of the profile query, or of the
    company query that follows it) is only written to the console: no
    toast, no navigation, the form as it was. *)
Theorem failed_check_is_silent (user : Guard.User) (profile : Single ProfileStatus)
    (companyAnswer : Single CompanyRow) (w : World) :
  (∃ e, profile = Failure e)
  ∨ (∃ data e, profile = Row data
               ∧ default false (onboarding_completed data) = false
               ∧ truthy (status_company_id data) = true
               ∧ companyAnswer = Failure e) →
  let w1 := mount_effect false (Some user) profile companyAnswer w in
  console w1 = (console w ++ ["Error checking onboarding status:"])%list
  ∧ toasts w1 = toasts w
  ∧ navigations w1 = navigations w
  ∧ form w1 = form w
  ∧ onboardingCompleted w1 = onboardingCompleted w
  ∧ loading w1 = loading w.
Proof.
  intros H w1. subst w1. unfold mount_effect, checkOnboardingStatus.
  destruct H as [[e ->] | (data & e & -> & Hc & Ht & ->)]; [done |].
  by rewrite Hc, Ht.
Qed.

Lemma failed_check_is_silent_witness :
  let user := Guard.mkUser "u1" "u1@example.com" in
  let w1 := mount_effect false (Some user)
              (Row (mkProfileStatus (Some false) (Some "co1")))
              (Failure (mkError "PGRST116" "no rows")) (init (Some user)) in
  console w1 = ["Error checking onboarding status:"]
  ∧ toasts w1 = []
  ∧ navigations w1 = []
  ∧ form w1 = form (init (Some user))
  ∧ onboardingCompleted w1 = false
  ∧ loading w1 = false.
Proof.
  apply (failed_check_is_silent (Guard.mkUser "u1" "u1@example.com")
           (Row (mkProfileStatus (Some false) (Some "co1")))
           (Failure (mkError "PGRST116" "no rows"))
           (init (Some (Guard.mkUser "u1" "u1@example.com")))).
  right. exists (mkProfileStatus (Some false) (Some "co1")), (mkError "PGRST116" "no rows").
  repeat split.
Defined.

End SetupFacts.
